(** * Verification of the Igor binary-wave reader [read_ibw.py]

    A shallow embedding of [src/utils/file_reader/read_ibw.py]
    ([_ibw_pixel_to_nm_scaling], [extract_metadata], [open_ibw]) and the
    properties of its specification that were checked against it.

    Conventions of the embedding.
    - A Python [str] is the list of its code points; a [bytes] object is a list
      of [Byte.byte].
    - A Python [float] is an IEEE binary64 number, Rocq's primitive [float].
    - A Python [int] is a [Z].
    - A Python [dict] is a [gmap]: equality of dicts ignores insertion order,
      and so does equality of [gmap]s.
    - Exceptions are values: a computation returns [Ok v] or [Raise e]. *)

From Stdlib Require Import ZArith List.
From Stdlib.Strings Require Import Ascii String Byte.
From Stdlib Require Import PrimFloat SpecFloat FloatOps.
From stdpp Require Import base option list gmap.

Set Warnings "-inexact-float".

Local Open Scope Z_scope.

(** ** Exceptions *)

(** A Python [str]: its code points, in order. *)
Abbreviation str := (list N).

(** A Python [bytes] object. *)
Abbreviation bytes := (list byte).

(** The exception classes the reader can raise.  Messages are not modelled,
    except the key of a [KeyError]. *)
Inductive exn : Type :=
  | KeyError (key : str)
  | ValueError
  | UnicodeDecodeError
  | ZeroDivisionError
  | OverflowError
  | IndexError
  | TypeError.

Inductive result (A : Type) : Type :=
  | Ok (a : A)
  | Raise (e : exn).
Arguments Ok {A} a.
Arguments Raise {A} e.

#[global] Instance result_ret : MRet result := fun A a => Ok a.
#[global] Instance result_bind : MBind result := fun A B f r =>
  match r with
  | Ok a => f a
  | Raise e => Raise e
  end.

(** [o or_raise e]: the value of [o], or the exception [e]. *)
Definition or_raise {A} (o : option A) (e : exn) : result A :=
  match o with
  | Some a => Ok a
  | None => Raise e
  end.

#[global] Instance result_fmap : FMap result := fun A B f r =>
  match r with
  | Ok a => Ok (f a)
  | Raise e => Raise e
  end.

Definition is_Ok {A} (r : result A) : Prop := exists a, r = Ok a.

(** A loop [for x in l: acc = f(acc, x)] whose body can raise. *)
Fixpoint foldM {A B} (f : A -> B -> result A) (acc : A) (l : list B) : result A :=
  match l with
  | [] => Ok acc
  | x :: l' => acc' ← f acc x; foldM f acc' l'
  end.

(** ** Strings *)

(** A string literal of the source, as a [str]. *)
Definition lit (s : string) : str :=
  List.map N_of_ascii (list_ascii_of_string s).

(** [Py_UNICODE_ISSPACE]: the code points [str.strip()] removes. *)
Definition is_space (c : N) : bool :=
  ((9 <=? c) && (c <=? 13) || (28 <=? c) && (c <=? 32)
   || (c =? 133) || (c =? 160) || (c =? 5760)
   || (8192 <=? c) && (c <=? 8202) || (c =? 8232) || (c =? 8233)
   || (c =? 8239) || (c =? 8287) || (c =? 12288))%N.

Fixpoint lstrip (s : str) : str :=
  match s with
  | c :: s' => if is_space c then lstrip s' else s
  | [] => []
  end.

(** [s.strip()] *)
Definition strip (s : str) : str :=
  rev (lstrip (rev (lstrip s))).

(** [sub in s], for a string [sub] of one character [c]. *)
Definition contains (c : N) (s : str) : bool :=
  existsb (N.eqb c) s.

(** [s.split(c, 1)] for a one-character separator, when [c in s]: the text
    before the first [c] and the text after it.  [None] when [c] does not
    occur (Python then returns a one-element list). *)
Fixpoint split_once (c : N) (s : str) : option (str * str) :=
  match s with
  | [] => None
  | d :: s' =>
      if (d =? c)%N then Some ([], s')
      else match split_once c s' with
           | Some (k, v) => Some (d :: k, v)
           | None => None
           end
  end.

(** [starts_with sep s]: [s.startswith(sep)]. *)
Fixpoint starts_with (sep s : str) : bool :=
  match sep, s with
  | [], _ => true
  | _ :: _, [] => false
  | a :: sep', b :: s' => (a =? b)%N && starts_with sep' s'
  end.

(** The scan of [s.split(sep)] for a non-empty [sep], left to right.  [skip]
    counts the characters of a separator occurrence still to be passed over
    and [cur] holds the current piece, reversed. *)
Fixpoint split_go (sep : str) (skip : nat) (cur : str) (s : str) : list str :=
  match s with
  | [] => [rev cur]
  | c :: s' =>
      match skip with
      | S n => split_go sep n cur s'
      | O =>
          if starts_with sep s
          then rev cur :: split_go sep (Nat.pred (length sep)) [] s'
          else split_go sep O (c :: cur) s'
      end
  end.

(** [s.split(sep)], [sep] not empty. *)
Definition split (sep : str) (s : str) : list str :=
  split_go sep O [] s.

(** The separator written ["\\r"] in the source: the two characters
    backslash and [r], not a carriage return. *)
Definition backslash_r : str := [92%N; 114%N].

(** The character [":"]. *)
Definition colon : N := 58%N.

(** ** The notes parser *)

(** The body of the loop shared by [_ibw_pixel_to_nm_scaling] (lines 23-26)
    and [extract_metadata] (lines 47-50):
<<
    if ":" in line:
        key, val = line.split(":", 1)
        metadata[key.strip()] = val.strip()
>> *)
Definition note_line (metadata : gmap str str) (line : str) : gmap str str :=
  if contains colon line then
    match split_once colon line with
    | Some (key, val) => <[strip key := strip val]> metadata
    | None => metadata
    end
  else metadata.

(** [extract_metadata(notes)], lines 46-51. *)
Definition extract_metadata (notes : str) : gmap str str :=
  fold_left note_line (split backslash_r notes) ∅.

(** ** Numbers *)

(** *** [int] to [float]

    Python converts an [int] to the nearest binary64 number, ties to even, and
    raises [OverflowError] when that is not finite. *)
Definition float_of_Z (n : Z) : float :=
  SF2Prim (binary_normalize prec emax n 0 false).

Definition int_to_float (n : Z) : result float :=
  let f := float_of_Z n in
  if is_infinity f then Raise OverflowError else Ok f.

(** *** Arithmetic

    Float multiplication never raises.  True division raises
    [ZeroDivisionError] when the divisor compares equal to zero ([0.0] or
    [-0.0]). *)
Definition truediv (a b : float) : result float :=
  if (b =? 0)%float then Raise ZeroDivisionError else Ok (a / b)%float.

(** [a / n], [a] a float and [n] an int. *)
Definition float_div_int (a : float) (n : Z) : result float :=
  b ← int_to_float n; truediv a b.

(** [n / b], [n] an int and [b] a float. *)
Definition int_div_float (n : Z) (b : float) : result float :=
  a ← int_to_float n; truediv a b.

(** [n * b], [n] an int and [b] a float. *)
Definition int_mul_float (n : Z) (b : float) : result float :=
  a ← int_to_float n; Ok (a * b)%float.

(** *** Decimal text to [float]

    [dec_to_float neg D E] is the binary64 number nearest to
    [(-1)^neg * D * 10^E], ties to even, as [strtod] computes it.  For a
    negative [E] the quotient is taken with 66 or more significant bits and
    a sticky last bit, so that the final rounding sees the exact position of
    the quotient between two neighbours. *)
Definition dec_to_float (neg : bool) (D E : Z) : float :=
  if D =? 0 then (if neg then neg_zero else zero)
  else if 0 <=? E then
    let m := D * 10 ^ E in
    SF2Prim (binary_normalize prec emax (if neg then - m else m) 0 false)
  else
    let d := 10 ^ (- E) in
    let s := Z.max 0 (66 + Z.log2 d - Z.log2 D) in
    let n := D * 2 ^ s in
    let j := 2 * (n / d) + (if n mod d =? 0 then 0 else 1) in
    SF2Prim (binary_normalize prec emax (if neg then - j else j) (- s - 1) false).

Definition is_digit (c : N) : bool := ((48 <=? c) && (c <=? 57))%N.

Definition digit_val (c : N) : Z := Z.of_N (c - 48).

(** The longest prefix of decimal digits: its value on top of [acc], the
    number of digits read on top of [cnt], and the rest of the text. *)
Fixpoint read_digits (acc : Z) (cnt : Z) (s : str) : Z * Z * str :=
  match s with
  | c :: s' =>
      if is_digit c then read_digits (10 * acc + digit_val c) (cnt + 1) s'
      else (acc, cnt, s)
  | [] => (acc, cnt, [])
  end.

(** An optional sign: whether it is [-], and the rest. *)
Definition read_sign (s : str) : bool * str :=
  match s with
  | 45%N :: s' => (true, s')
  | 43%N :: s' => (false, s')
  | _ => (false, s)
  end.

(** ASCII lower case, for the case-insensitive match of [inf] and [nan]. *)
Definition lower (c : N) : N :=
  if ((65 <=? c) && (c <=? 90))%N then (c + 32)%N else c.

(** [_PyUnicode_TransformDecimalAndSpaceToASCII]: code points below 127 are
    kept, other Unicode spaces become a blank, anything else becomes [?].
    Decimal digits of other scripts, which Python maps to ASCII digits, are
    not recognised: the texts converted here come from the [repr] of a
    [bytes] object and are ASCII. *)
Definition to_ascii (s : str) : str :=
  List.map (fun c => if (c <? 127)%N then c
                     else if is_space c then 32%N else 63%N) s.

(** [Py_ISSPACE] *)
Definition is_ascii_space (c : N) : bool :=
  ((9 <=? c) && (c <=? 13) || (c =? 32))%N.

Fixpoint lstrip_ascii (s : str) : str :=
  match s with
  | c :: s' => if is_ascii_space c then lstrip_ascii s' else s
  | [] => []
  end.

Definition strip_ascii (s : str) : str :=
  rev (lstrip_ascii (rev (lstrip_ascii s))).

(** The pass of [_Py_string_to_number_with_underscores]: an underscore must
    follow a digit and precede a digit; underscores are then dropped.  [prev]
    is the previous character (0 at the start). *)
Fixpoint drop_underscores (prev : N) (s : str) : option str :=
  match s with
  | [] => if (prev =? 95)%N then None else Some []
  | c :: s' =>
      if (c =? 95)%N then
        if is_digit prev then drop_underscores c s' else None
      else if (prev =? 95)%N && negb (is_digit c) then None
      else cons c <$> drop_underscores c s'
  end.

(** [_Py_dg_strtod] on a whole text: sign, digits, optional point and
    digits, optional exponent; at least one digit in the mantissa, at least
    one in an exponent, nothing left over. *)
Definition parse_decimal (s : str) : option float :=
  let '(neg, s1) := read_sign s in
  let '(ip, n1, s2) := read_digits 0 0 s1 in
  let '(D, n2, s3) :=
    match s2 with
    | 46%N :: s2' => read_digits ip 0 s2'
    | _ => (ip, 0, s2)
    end in
  if n1 + n2 =? 0 then None
  else
    match s3 with
    | [] => Some (dec_to_float neg D (- n2))
    | c :: s4 =>
        if (lower c =? 101)%N then
          let '(eneg, s5) := read_sign s4 in
          let '(ex, n3, s6) := read_digits 0 0 s5 in
          if n3 =? 0 then None
          else match s6 with
               | [] => Some (dec_to_float neg D ((if eneg then - ex else ex) - n2))
               | _ :: _ => None
               end
        else None
    end.

(** [_Py_parse_inf_or_nan] on a whole text. *)
Definition parse_inf_or_nan (s : str) : option float :=
  let '(neg, s1) := read_sign s in
  let w := List.map lower s1 in
  if bool_decide (w = lit "inf") || bool_decide (w = lit "infinity")
  then Some (if neg then neg_infinity else infinity)
  else if bool_decide (w = lit "nan") then Some nan
  else None.

(** [float(s)] for a [str]. *)
Definition float_of_str (s : str) : result float :=
  match drop_underscores 0 (to_ascii s) with
  | None => Raise ValueError
  | Some t =>
      let t := strip_ascii t in
      match parse_decimal t with
      | Some f => Ok f
      | None => or_raise (parse_inf_or_nan t) ValueError
      end
  end.

(** [PyLong_FromString] in base 10 on a whole text: blanks, sign, one or
    more digits (underscores already checked and dropped), blanks.  The
    interpreter's configurable limit on the number of digits is not
    modelled. *)
Definition int_of_str (s : str) : result Z :=
  match drop_underscores 0 (strip_ascii (to_ascii s)) with
  | None => Raise ValueError
  | Some t =>
      let '(neg, s1) := read_sign t in
      let '(n, cnt, s2) := read_digits 0 0 s1 in
      if cnt =? 0 then Raise ValueError
      else match s2 with
           | [] => Ok (if neg then - n else n)
           | _ :: _ => Raise ValueError
           end
  end.

(** [int(f)] for a float: truncation towards zero. *)
Definition float_to_int (f : float) : result Z :=
  match Prim2SF f with
  | S754_zero _ => Ok 0
  | S754_nan => Raise ValueError
  | S754_infinity _ => Raise OverflowError
  | S754_finite sg m e =>
      let a := match e with
               | Z0 => Zpos m
               | Zpos k => Z.shiftl (Zpos m) (Zpos k)
               | Zneg k => Z.shiftr (Zpos m) (Zpos k)
               end in
      Ok (if sg then - a else a)
  end.

(** ** Python values *)

(** The values stored in the dictionaries and lists of [open_ibw]. *)
Inductive pyval : Type :=
  | VInt (n : Z)
  | VFloat (f : float)
  | VStr (s : str)
  | VNone.

(** [float(v)] *)
Definition py_float (v : pyval) : result float :=
  match v with
  | VStr s => float_of_str s
  | VFloat f => Ok f
  | VInt n => int_to_float n
  | VNone => Raise TypeError
  end.

(** [int(v)] *)
Definition py_int (v : pyval) : result Z :=
  match v with
  | VStr s => int_of_str s
  | VInt n => Ok n
  | VFloat f => float_to_int f
  | VNone => Raise TypeError
  end.

(** [d.get(key, dflt)] *)
Definition get (d : gmap str pyval) (key : str) (dflt : pyval) : pyval :=
  default dflt (d !! key).

(** [dict(zip(keys, values))]: pairs are inserted from left to right, so a
    repeated key keeps its last value; [zip] stops at the shorter list. *)
Definition dict_of_zip (keys : list str) (values : list pyval) : gmap str pyval :=
  fold_left (fun d kv => <[kv.1 := kv.2]> d) (zip keys values) ∅.

(** ** Bytes *)

Definition hex_digit (n : N) : N :=
  if (n <? 10)%N then (48 + n)%N else (87 + n)%N.

(** The escape of one byte in [repr] of a [bytes] object delimited by
    [quote]. *)
Definition repr_byte (quote : N) (b : byte) : str :=
  let c := Byte.to_N b in
  if ((c =? quote) || (c =? 92))%N then [92%N; c]
  else if (c =? 9)%N then lit "\t"
  else if (c =? 10)%N then lit "\n"
  else if (c =? 13)%N then lit "\r"
  else if ((c <? 32) || (127 <=? c))%N
       then [92%N; 120%N; hex_digit (c / 16); hex_digit (c mod 16)]
  else [c].

(** [str(b)] for a [bytes] object [b], which is its [repr]: [b'...'], or
    [b"..."] when [b] holds a single quote and no double quote. *)
Definition str_of_bytes (b : bytes) : str :=
  let cs := List.map Byte.to_N b in
  let quote := if existsb (N.eqb 39) cs && negb (existsb (N.eqb 34) cs)
               then 34%N else 39%N in
  98%N :: quote :: concat (List.map (repr_byte quote) b) ++ [quote].

Definition is_cont (c : N) : bool := ((128 <=? c) && (c <=? 191))%N.

(** [b.decode()]: strict UTF-8.  [fuel] bounds the number of characters. *)
Fixpoint utf8_go (fuel : nat) (cs : list N) : option str :=
  match fuel with
  | O => match cs with [] => Some [] | _ => None end
  | S fuel =>
      match cs with
      | [] => Some []
      | a :: r =>
          if (a <? 128)%N then cons a <$> utf8_go fuel r
          else match r with
          | b :: r1 =>
              if ((194 <=? a) && (a <=? 223))%N then
                if is_cont b
                then cons ((a - 192) * 64 + (b - 128))%N <$> utf8_go fuel r1
                else None
              else match r1 with
              | c :: r2 =>
                  if ((224 <=? a) && (a <=? 239))%N then
                    if is_cont b && is_cont c
                       && negb ((a =? 224) && (b <? 160))%N
                       && negb ((a =? 237) && (160 <=? b))%N
                    then cons ((a - 224) * 4096 + (b - 128) * 64 + (c - 128))%N
                           <$> utf8_go fuel r2
                    else None
                  else match r2 with
                  | d :: r3 =>
                      if ((240 <=? a) && (a <=? 244))%N then
                        if is_cont b && is_cont c && is_cont d
                           && negb ((a =? 240) && (b <? 144))%N
                           && negb ((a =? 244) && (144 <=? b))%N
                        then cons ((a - 240) * 262144 + (b - 128) * 4096
                                   + (c - 128) * 64 + (d - 128))%N
                               <$> utf8_go fuel r3
                        else None
                      else None
                  | [] => None
                  end
              | [] => None
              end
          | [] => None
          end
      end
  end.

Definition decode (b : bytes) : result str :=
  or_raise (utf8_go (length b) (List.map Byte.to_N b)) UnicodeDecodeError.

(** [bytes_of s]: the bytes of an ASCII literal. *)
Definition bytes_of (s : string) : bytes := list_byte_of_string s.

(** ** Arrays *)

(** A three-dimensional [numpy] array of shape [(dim0, dim1, dim2)]:
    [cells] lists the [dim0] rows, each row its [dim1] columns, each column
    its [dim2] channel samples. *)
Record ndarray3 (elt : Type) : Type := {
  dim0 : nat;
  dim1 : nat;
  dim2 : nat;
  cells : list (list (list elt))
}.
Arguments dim0 {elt} _.
Arguments dim1 {elt} _.
Arguments dim2 {elt} _.
Arguments cells {elt} _.

(** A two-dimensional array of shape [(nrows, ncols)]. *)
Record ndarray2 (elt : Type) : Type := {
  nrows : nat;
  ncols : nat;
  rows : list (list elt)
}.
Arguments nrows {elt} _.
Arguments ncols {elt} _.
Arguments rows {elt} _.

(** The shape invariant every [numpy] array satisfies. *)
Definition wf3 {elt} (a : ndarray3 elt) : Prop :=
  length (cells a) = dim0 a
  /\ Forall (fun row => length row = dim1 a
                       /\ Forall (fun col => length col = dim2 a) row) (cells a).

Definition wf2 {elt} (a : ndarray2 elt) : Prop :=
  length (rows a) = nrows a /\ Forall (fun row => length row = ncols a) (rows a).

Section Arrays.
Context {elt : Type}.

(** [a[i][j][k]] *)
Definition get3 (a : ndarray3 elt) (i j k : nat) : option elt :=
  row ← cells a !! i; col ← row !! j; col !! k.

(** [a[i][j]] *)
Definition get2 (a : ndarray2 elt) (i j : nat) : option elt :=
  row ← rows a !! i; row !! j.

(** [a[:, :, k]]: an index outside the third axis raises [IndexError]. *)
Definition plane (a : ndarray3 elt) (k : nat) : result (ndarray2 elt) :=
  if decide (k < dim2 a)%nat then
    rs ← or_raise (mapM (mapM (fun col : list elt => col !! k)) (cells a)) IndexError;
    Ok {| nrows := dim0 a; ncols := dim1 a; rows := rs |}
  else Raise IndexError.

(** The transpose of the rows [rs], each of length [n]. *)
Fixpoint transpose_rows (n : nat) (rs : list (list elt)) : list (list elt) :=
  match rs with
  | [] => replicate n []
  | r :: rs' => zip_with cons r (transpose_rows n rs')
  end.

(** [a.T] *)
Definition transpose (a : ndarray2 elt) : ndarray2 elt :=
  {| nrows := ncols a; ncols := nrows a;
     rows := transpose_rows (ncols a) (rows a) |}.

(** [numpy.flipud(a)]: the rows in reverse order. *)
Definition flipud (a : ndarray2 elt) : ndarray2 elt :=
  {| nrows := nrows a; ncols := ncols a; rows := rev (rows a) |}.

(** An operation applied to every element. *)
Definition map2 (f : elt -> elt) (a : ndarray2 elt) : ndarray2 elt :=
  {| nrows := nrows a; ncols := ncols a; rows := List.map (List.map f) (rows a) |}.
End Arrays.

(** ** The loaded wave *)

(** The part of [binarywave.load(file_path)["wave"]] the reader uses: the
    note, a [bytes] object (the reader takes [str] of it and splits the
    escaped text); the label lists, of [bytes] objects (the reader decodes
    them); the three-dimensional sample array. *)
Record wave (elt : Type) : Type := {
  note : bytes;
  labels : list (list bytes);
  wData : ndarray3 elt
}.
Arguments note {elt} _.
Arguments labels {elt} _.
Arguments wData {elt} _.

(** [l.index(x)] *)
Fixpoint index (x : str) (l : list str) : result nat :=
  match l with
  | [] => Raise ValueError
  | y :: l' => if decide (y = x) then Ok O else S <$> index x l'
  end.

Section Reader.
(** The element type of the sample array and its [x * 1e9], which [numpy]
    computes in the array's own element type. *)
Context {elt : Type} (times_1e9 : elt -> elt).

(** [utils.constants.STANDARDISED_METADATA_DICT_KEYS], defined outside the
    reader. *)
Variable STANDARDISED_METADATA_DICT_KEYS : list str.

(** ** [_ibw_pixel_to_nm_scaling] *)

(** One component of the tuple of lines 27-30:
    [1/(float(notes[key]) / scan["wave"]["wData"].shape[axis] * 1e9)]. *)
Definition axis_scaling (notes : gmap str str) (key : str) (pixels : nat)
  : result float :=
  v ← or_raise (notes !! key) (KeyError key);
  size ← float_of_str v;
  q ← float_div_int size (Z.of_nat pixels);
  int_div_float 1 (q * 1e9)%float.

Definition _ibw_pixel_to_nm_scaling (scan : wave elt) : result float :=
  let notes :=
    fold_left note_line (split backslash_r (str_of_bytes (note scan))) ∅ in
  slow ← axis_scaling notes (lit "SlowScanSize") (dim0 (wData scan));
  fast ← axis_scaling notes (lit "FastScanSize") (dim1 (wData scan));
  Ok (slow, fast).1.

(** ** [open_ibw] *)

(** Lines 78-82: the non-empty labels, decoded, in order. *)
Definition collect_labels (lls : list (list bytes)) : result (list str) :=
  foldM (fun acc label_list =>
    foldM (fun acc (label : bytes) =>
      match label with
      | [] => Ok acc
      | _ :: _ => name ← decode label; Ok (acc ++ [name])
      end) acc label_list) [] lls.

(** Lines 83-84: the requested channel, or the first label. *)
Definition resolve_channel (channel : str) (labels : list str) : result str :=
  if bool_decide (channel ∈ labels) then Ok channel
  else or_raise (labels !! O) IndexError.

(** Lines 87-88: the plane of the channel, transposed, scaled and flipped. *)
Definition view (w : ndarray3 elt) (channel_idx : nat) : result (ndarray2 elt) :=
  p ← plane w channel_idx;
  let image := map2 times_1e9 (transpose p) in
  Ok (flipud image).

(** Lines 94-97: the fields read from the notes. *)
Definition note_fields (metadata : gmap str pyval)
  : result (float * Z * Z * float) :=
  x ← py_float (get metadata (lit "FastScanSize") (VStr (lit "0")));
  let x_range_nm := (x * 1e9)%float in
  y_pixels ← py_int (get metadata (lit "ScanLines") (VStr (lit "0")));
  x_pixels ← py_int (get metadata (lit "ScanPoints") (VStr (lit "0")));
  scan_rate ← py_float (get metadata (lit "ScanRate") (VStr (lit "0")));
  Ok (x_range_nm, y_pixels, x_pixels, scan_rate).

(** Line 100: [1 / scan_rate if y_pixels else 0]. *)
Definition line_rate_of (y_pixels : Z) (scan_rate : float) : result pyval :=
  if y_pixels =? 0 then Ok (VInt 0)
  else VFloat <$> int_div_float 1 scan_rate.

(** Line 101: [1/(y_pixels * scan_rate) if scan_rate != 0 else 0]. *)
Definition fps_of (y_pixels : Z) (scan_rate : float) : result pyval :=
  if negb (scan_rate =? 0)%float then
    d ← int_mul_float y_pixels scan_rate;
    VFloat <$> int_div_float 1 d
  else Ok (VInt 0).

(** Lines 104-120: the value list and the record built from it. *)
Definition assemble (values : list pyval) : result (gmap str pyval) :=
  if decide (length values ≠ length STANDARDISED_METADATA_DICT_KEYS)
  then Raise ValueError
  else Ok (dict_of_zip STANDARDISED_METADATA_DICT_KEYS values).

(** Lines 93-120, from the notes dictionary, the scaling and the channel
    name to the standardised record. *)
Definition normalise (metadata : gmap str pyval) (scaling : float)
  (channel : str) : result (gmap str pyval) :=
  let num_frames := 1 in
  '(x_range_nm, y_pixels, x_pixels, scan_rate) ← note_fields metadata;
  line_rate ← line_rate_of y_pixels scan_rate;
  fps ← fps_of y_pixels scan_rate;
  let pixel_to_nanometre_scaling_factor := scaling in
  assemble [VInt num_frames; VFloat x_range_nm; fps; line_rate;
            VInt y_pixels; VInt x_pixels;
            VFloat pixel_to_nanometre_scaling_factor; VStr channel; VNone].

(** [open_ibw], from the wave that [binarywave.load(file_path)] returned. *)
Definition open_ibw (scan : wave elt) (channel : str)
  : result (ndarray2 elt * gmap str pyval * list str) :=
  labels ← collect_labels (labels scan);
  channel ← resolve_channel channel labels;
  channel_idx ← index channel labels;
  image ← view (wData scan) channel_idx;
  scaling ← _ibw_pixel_to_nm_scaling scan;
  let metadata := VStr <$> extract_metadata (str_of_bytes (note scan)) in
  let metadata := <[lit "scaling_factor" := VFloat scaling]> metadata in
  file_metadata ← normalise metadata scaling channel;
  Ok (image, file_metadata, labels).
End Reader.

(** ** Examples used below *)

(** The carriage-return character and byte. *)
Definition CR : N := 13%N.
Definition CR_byte : byte := Byte.x0d.

(** [x * 1e9] on binary64 samples. *)
Definition float_times_1e9 (x : float) : float := (x * 1e9)%float.

(** A [rows x cols x chans] array of binary64 samples; the sample at
    [(r, c, k)] is [(r * cols + c) * chans + k]. *)
Definition ramp (rows cols chans : nat) : ndarray3 float :=
  {| dim0 := rows; dim1 := cols; dim2 := chans;
     cells := List.map (fun r => List.map (fun c => List.map (fun k =>
                float_of_Z (Z.of_nat ((r * cols + c) * chans + k)))
                (seq 0 chans)) (seq 0 cols)) (seq 0 rows) |}.

(** The note text of claim C2 with its lines ended by carriage returns. *)
Definition cr_notes : str := lit "A:1" ++ [CR] ++ lit "B: two " ++ [CR].

(** The lines of a note, each followed by a carriage return. *)
Definition note_of_lines (lines : list string) : bytes :=
  concat (List.map (fun l => bytes_of l ++ [CR_byte]) lines).

(** Modelled from the spec: [utils.constants.STANDARDISED_METADATA_DICT_KEYS]
    is not part of the reader.  The spec (section 3, StandardizedMetadata)
    lists nine fields in a fixed order; the names below follow the variables
    of [open_ibw] that fill them, and stand in for the real names only in
    the examples. *)
Definition example_keys : list str :=
  List.map lit ["num_frames"; "x_range_nm"; "fps"; "line_rate"; "y_pixels";
                "x_pixels"; "pixel_to_nanometre_scaling_factor"; "channel";
                "reserved"]%string.

(** ** Notions used in the statements *)

Local Open Scope float_scope.

(** The notes dictionary of a wave, as both functions of the reader build
    it from [str(scan["wave"]["note"])]. *)
Definition scan_notes {elt} (scan : wave elt) : gmap str str :=
  extract_metadata (str_of_bytes (note scan)).

(** The outcomes of one component of the scaling tuple, for the note [key]
    and a pixel count that converts to the float [P]. *)
Inductive axis_outcome (notes : gmap str str) (key : str) (P : float)
  : result float -> Prop :=
  | axis_missing :
      notes !! key = None ->
      axis_outcome notes key P (Raise (KeyError key))
  | axis_not_numeric v :
      notes !! key = Some v -> float_of_str v = Raise ValueError ->
      axis_outcome notes key P (Raise ValueError)
  | axis_no_pixels v s :
      notes !! key = Some v -> float_of_str v = Ok s ->
      (P =? 0) = true ->
      axis_outcome notes key P (Raise ZeroDivisionError)
  | axis_zero_denominator v s :
      notes !! key = Some v -> float_of_str v = Ok s ->
      (P =? 0) = false -> (s / P * 1e9 =? 0) = true ->
      axis_outcome notes key P (Raise ZeroDivisionError)
  | axis_value v s :
      notes !! key = Some v -> float_of_str v = Ok s ->
      (P =? 0) = false -> (s / P * 1e9 =? 0) = false ->
      axis_outcome notes key P (Ok (1 / (s / P * 1e9))).

(** A 4 x 4 single-channel wave whose two scan sizes differ. *)
Definition scan_axes_differ : wave float :=
  {| note := note_of_lines ["Note"; "SlowScanSize:2e-6"; "FastScanSize:1e-6"]%string;
     labels := [[bytes_of "Height"]];
     wData := ramp 4 4 1 |}.

(** A 4 x 4 single-channel wave whose slow scan size is the smallest
    positive binary64 number. *)
Definition scan_underflow : wave float :=
  {| note := note_of_lines ["Note"; "SlowScanSize:5e-324"; "FastScanSize:1e-6"]%string;
     labels := [[bytes_of "Height"]];
     wData := ramp 4 4 1 |}.

(** A 2 x 3 array with 2 channels. *)
Definition ramp232 : ndarray3 float := ramp 2 3 2.

(** The later stages of [open_ibw], lines 86-122, once the labels and the
    channel name are known. *)
Definition open_ibw_from {elt} (times_1e9 : elt -> elt) (keys : list str)
    (scan : wave elt) (labels : list str) (channel : str)
  : result (ndarray2 elt * gmap str pyval * list str) :=
  channel_idx ← index channel labels;
  image ← view times_1e9 (wData scan) channel_idx;
  scaling ← _ibw_pixel_to_nm_scaling scan;
  let metadata := VStr <$> extract_metadata (str_of_bytes (note scan)) in
  let metadata := <[lit "scaling_factor" := VFloat scaling]> metadata in
  file_metadata ← normalise keys metadata scaling channel;
  Ok (image, file_metadata, labels).

(** A wave without any non-empty label. *)
Definition scan_no_labels : wave float :=
  {| note := note_of_lines ["Note"; "SlowScanSize:2e-6"; "FastScanSize:1e-6"]%string;
     labels := [[]; []; [[]]; []];
     wData := ramp 4 4 1 |}.

(** The dictionary of lines 90-91: the notes, and the scaling under
    ["scaling_factor"]. *)
Definition metadata_dict (notes : gmap str str) (scaling : float) : gmap str pyval :=
  <[lit "scaling_factor" := VFloat scaling]> (VStr <$> notes).

(** The list [values] of lines 104-114. *)
Definition value_list (x_range_nm : float) (fps line_rate : pyval)
    (y_pixels x_pixels : Z) (scaling : float) (channel : str) : list pyval :=
  [VInt 1; VFloat x_range_nm; fps; line_rate; VInt y_pixels; VInt x_pixels;
   VFloat scaling; VStr channel; VNone].

(** A note that provides every field the reader uses. *)
Definition full_note : bytes :=
  note_of_lines ["Note"; "SlowScanSize:4e-9"; "FastScanSize:4e-9";
                 "ScanLines:4"; "ScanPoints:4"; "ScanRate:2"]%string.

(** A key is convertible when it is absent or its note converts. *)
Definition convertible {A} (conv : str -> result A) (notes : gmap str str)
    (key : str) : Prop :=
  forall v, notes !! key = Some v -> is_Ok (conv v).

(** A wave whose [ScanLines] note is not a number. *)
Definition scan_bad_lines : wave float :=
  {| note := note_of_lines ["Note"; "SlowScanSize:4e-9"; "FastScanSize:4e-9";
                            "ScanLines:abc"; "ScanRate:2"]%string;
     labels := [[bytes_of "Height"]];
     wData := ramp 4 4 1 |}.

(** A wave without a [ScanLines] note and with a scan rate of 2. *)
Definition scan_no_lines : wave float :=
  {| note := note_of_lines ["Note"; "SlowScanSize:4e-9"; "FastScanSize:4e-9";
                            "ScanRate:2"]%string;
     labels := [[bytes_of "Height"]];
     wData := ramp 4 4 1 |}.

(** The wave of claim C3: 4 x 4 samples, one channel, and the four note
    lines of the claim. *)
Definition scan_c3 : wave float :=
  {| note := note_of_lines ["FastScanSize:4e-9"; "ScanLines:4"; "ScanPoints:4";
                            "ScanRate:2"]%string;
     labels := [[bytes_of "Height"]];
     wData := ramp 4 4 1 |}.

(** [sep in s] for a text [sep]: some suffix of [s] starts with [sep]. *)
Fixpoint occurs (sep s : str) : bool :=
  starts_with sep s
  || match s with
     | [] => false
     | _ :: s' => occurs sep s'
     end.

(** Printable ASCII, from the blank to the tilde. *)
Definition is_printable (c : N) : bool := ((32 <=? c) && (c <? 127))%N.

(** The code points of ASCII bytes. *)
Definition codes (b : bytes) : str := List.map Byte.to_N b.

(** A byte that [repr] shows as itself and that does not change the quote:
    printable ASCII other than the backslash and the single quote. *)
Definition plain (b : byte) : bool :=
  is_printable (Byte.to_N b)
  && negb (Byte.to_N b =? 92)%N && negb (Byte.to_N b =? 39)%N.

(** A note made of lines, each followed by a carriage return. *)
Definition cr_lines (lines : list bytes) : bytes :=
  concat (List.map (fun l => l ++ [CR_byte]) lines).

(** An element type of [numpy] arrays, as far as line 87 uses it: the
    elements, the conversion of a Python float to the element type, and the
    product of two elements. *)
Record dtype : Type := {
  dt_elt : Type;
  dt_of_float : float -> dt_elt;
  dt_mul : dt_elt -> dt_elt -> dt_elt
}.

(** [numpy.float64]: binary64 numbers and their product. *)
Definition float64 : dtype :=
  {| dt_elt := float; dt_of_float := fun c => c; dt_mul := PrimFloat.mul |}.

(** The [* 1e9] of line 87 on one sample: the product, in the element type
    of the array, of the sample and the Python float [1e9]. *)
Definition times_1e9_of (d : dtype) (x : dt_elt d) : dt_elt d :=
  dt_mul d x (dt_of_float d 1e9).

(** Lines 87-88 for samples of element type [d]:
<<
    image = scan["wave"]["wData"][:, :, channel_idx].T * 1e9
    image = np.flipud(image)
>> *)
Definition image_of (d : dtype) (w : ndarray3 (dt_elt d)) (channel_idx : nat)
  : result (ndarray2 (dt_elt d)) :=
  view (times_1e9_of d) w channel_idx.

(** A wave with two labels and a single channel of samples. *)
Definition scan_two_labels : wave float :=
  {| note := full_note;
     labels := [[bytes_of "Height"; bytes_of "Phase"]];
     wData := ramp 4 4 1 |}.

(** * Properties *)

(** ** The result monad *)

Lemma bind_Ok {A B} (f : A -> result B) (a : A) : (x ← Ok a; f x) = f a.
Proof. reflexivity. Qed.

Lemma bind_Raise {A B} (f : A -> result B) (e : exn) :
  (x ← Raise e; f x) = Raise e.
Proof. reflexivity. Qed.

Lemma bind_Ok_inv {A B} (f : A -> result B) (r : result A) (b : B) :
  (x ← r; f x) = Ok b -> exists a, r = Ok a /\ f a = Ok b.
Proof. destruct r as [a|e]; simpl; [eauto | discriminate]. Qed.

Lemma fmap_Ok_inv {A B} (f : A -> B) (r : result A) (b : B) :
  f <$> r = Ok b -> exists a, r = Ok a /\ b = f a.
Proof. destruct r as [a|e]; simpl; [intros [= <-]; eauto | discriminate]. Qed.

Lemma or_raise_Ok_inv {A} (o : option A) (e : exn) (a : A) :
  or_raise o e = Ok a -> o = Some a.
Proof. destruct o; simpl; congruence. Qed.

Lemma is_Ok_Ok {A} (a : A) : is_Ok (Ok a).
Proof. exists a; reflexivity. Qed.

Lemma not_is_Ok_Raise {A} (e : exn) : ~ is_Ok (@Raise A e).
Proof. intros [a Ha]; discriminate. Qed.

#[local] Hint Resolve is_Ok_Ok : core.

(** ** The notes parser *)

(** A line without a colon leaves the dictionary as it is. *)
Lemma note_line_no_colon (m : gmap str str) (line : str) :
  contains colon line = false -> note_line m line = m.
Proof. unfold note_line; intros ->; reflexivity. Qed.

Lemma split_once_first (c : N) (key val : str) :
  contains c key = false -> split_once c (key ++ c :: val) = Some (key, val).
Proof.
  induction key as [|d key IH]; simpl.
  - rewrite N.eqb_refl; reflexivity.
  - intros H. apply orb_false_iff in H as [Hd Hk].
    rewrite N.eqb_sym, Hd, IH by assumption. reflexivity.
Qed.

Lemma contains_app (c : N) (s t : str) :
  contains c (s ++ t) = contains c s || contains c t.
Proof. unfold contains; apply existsb_app. Qed.

(** A line is split at its first colon only, and both sides are trimmed. *)
Lemma note_line_colon (m : gmap str str) (key val : str) :
  contains colon key = false ->
  note_line m (key ++ colon :: val) = <[strip key := strip val]> m.
Proof.
  intros Hk. unfold note_line.
  rewrite contains_app.
  replace (contains colon (colon :: val)) with true
    by (unfold contains; cbn [existsb]; rewrite N.eqb_refl; reflexivity).
  rewrite orb_true_r, split_once_first by assumption. reflexivity.
Qed.

(** The loop of [_ibw_pixel_to_nm_scaling] builds the dictionary that
    [extract_metadata] returns for the same text. *)
Lemma scaling_notes_eq (b : bytes) :
  fold_left note_line (split backslash_r (str_of_bytes b)) ∅
  = extract_metadata (str_of_bytes b).
Proof. reflexivity. Qed.

(** C2, as stated, fails: the note text of the claim, its lines ended by
    carriage-return characters, is not split at all, since the separator of
    the parser is the two-character text backslash-r.  The whole text is one
    line, and the value of [A] is everything after the first colon. *)
Lemma C2_carriage_return_counterexample :
  extract_metadata cr_notes
    <> <[lit "B" := lit "two"]> (<[lit "A" := lit "1"]> ∅)
  /\ extract_metadata cr_notes
     = <[lit "A" := lit "1" ++ [CR] ++ lit "B: two"]> ∅.
Proof.
  assert (E : extract_metadata cr_notes
              = <[lit "A" := lit "1" ++ [CR] ++ lit "B: two"]> ∅)
    by (vm_compute; reflexivity).
  split; [|exact E].
  rewrite E. intros H.
  apply (f_equal (fun m : gmap str str => m !! lit "B")) in H.
  vm_compute in H. discriminate.
Qed.

(** C2, amended: with lines ended by the two characters backslash and [r]
    (the form in which [str] of a [bytes] note shows a carriage return), the
    text parses to [{"A": "1", "B": "two"}]; a line without a colon between
    them changes nothing.  In general a line without a colon is ignored, and a
    line with a colon is split at the first colon, both sides trimmed. *)
Theorem C2_notes_parser_backslash_r :
  extract_metadata (lit "A:1\rB: two \r")
  = <[lit "B" := lit "two"]> (<[lit "A" := lit "1"]> ∅)
  /\ extract_metadata (lit "A:1\rgarbage\rB: two \r")
     = <[lit "B" := lit "two"]> (<[lit "A" := lit "1"]> ∅)
  /\ (forall (m : gmap str str) (line : str),
        contains colon line = false -> note_line m line = m)
  /\ (forall (m : gmap str str) (key val : str),
        contains colon key = false ->
        note_line m (key ++ colon :: val) = <[strip key := strip val]> m).
Proof.
  split; [vm_compute; reflexivity|].
  split; [vm_compute; reflexivity|].
  split; [exact note_line_no_colon | exact note_line_colon].
Qed.

(** ** The scaling calculator *)


Lemma float_of_str_Raise (s : str) (e : exn) :
  float_of_str s = Raise e -> e = ValueError.
Proof.
  unfold float_of_str.
  destruct (drop_underscores _ _) as [t|]; [|congruence].
  destruct (parse_decimal _); [discriminate|].
  destruct (parse_inf_or_nan _); simpl; congruence.
Qed.

Lemma int_of_str_Raise (s : str) (e : exn) :
  int_of_str s = Raise e -> e = ValueError.
Proof.
  unfold int_of_str.
  destruct (drop_underscores _ _) as [t|]; [|congruence].
  destruct (read_sign t) as [neg s1].
  destruct (read_digits 0 0 s1) as [[n cnt] s2].
  destruct (cnt =? 0)%Z; [congruence|].
  destruct s2; congruence.
Qed.

Lemma int_to_float_1 : int_to_float 1 = Ok 1.
Proof. vm_compute. reflexivity. Qed.

Lemma int_to_float_0 : int_to_float 0 = Ok 0.
Proof. vm_compute. reflexivity. Qed.

Lemma axis_scaling_outcome (notes : gmap str str) (key : str) (n : nat) (P : float) :
  int_to_float (Z.of_nat n) = Ok P ->
  axis_outcome notes key P (axis_scaling notes key n).
Proof.
  intros HP. unfold axis_scaling.
  destruct (notes !! key) as [v|] eqn:Hv; simpl; [|by constructor].
  destruct (float_of_str v) as [s|e] eqn:Hs; simpl.
  - unfold float_div_int. rewrite HP; simpl. unfold truediv at 1.
    destruct (P =? 0) eqn:HP0; simpl; [by eapply axis_no_pixels|].
    unfold int_div_float. rewrite int_to_float_1; simpl. unfold truediv.
    destruct (s / P * 1e9 =? 0) eqn:Hd;
      [by eapply axis_zero_denominator | by eapply axis_value].
  - pose proof (float_of_str_Raise _ _ Hs) as ->. by eapply axis_not_numeric.
Qed.

(** The scaling is the first component of the tuple, once both components
    have been computed. *)
Lemma scaling_unfold {elt} (scan : wave elt) :
  _ibw_pixel_to_nm_scaling scan
  = (slow ← axis_scaling (scan_notes scan) (lit "SlowScanSize") (dim0 (wData scan));
     fast ← axis_scaling (scan_notes scan) (lit "FastScanSize") (dim1 (wData scan));
     Ok slow).
Proof. reflexivity. Qed.

Lemma axis_scaling_value (notes : gmap str str) (key v : str) (n : nat) (s P : float) :
  notes !! key = Some v -> float_of_str v = Ok s ->
  int_to_float (Z.of_nat n) = Ok P ->
  (P =? 0) = false -> (s / P * 1e9 =? 0) = false ->
  axis_scaling notes key n = Ok (1 / (s / P * 1e9)).
Proof.
  intros Hv Hs HP HP0 Hd.
  destruct (axis_scaling_outcome notes key n P HP); congruence.
Qed.

(** C1, as stated, fails: with a slow scan size of 2e-6 and a fast scan size
    of 1e-6 over 4 x 4 pixels the function returns the value computed from
    [SlowScanSize] and [shape[0]], not the fast-axis one. *)
Lemma C1_fast_axis_counterexample :
  _ibw_pixel_to_nm_scaling scan_axes_differ = Ok (1 / (2e-6 / 4 * 1e9))
  /\ _ibw_pixel_to_nm_scaling scan_axes_differ <> Ok (1 / (1e-6 / 4 * 1e9)).
Proof.
  assert (E : _ibw_pixel_to_nm_scaling scan_axes_differ = Ok (1 / (2e-6 / 4 * 1e9)))
    by (vm_compute; reflexivity).
  split; [exact E|]. rewrite E. intros H.
  apply (f_equal (fun r => match r with
                           | Ok x => (x =? 1 / (2e-6 / 4 * 1e9))
                           | Raise _ => false
                           end)) in H.
  vm_compute in H. discriminate.
Qed.

(** C1, amended: when both components of the tuple can be computed, the
    function returns component 0, the slow-axis value
    [1 / (SlowScanSize / shape[0] * 1e9)]; the fast-axis value is computed
    and dropped. *)
Theorem C1_scaling_is_slow_axis {elt} (scan : wave elt)
    (vs vf : str) (s f R C : float) :
  scan_notes scan !! lit "SlowScanSize" = Some vs -> float_of_str vs = Ok s ->
  scan_notes scan !! lit "FastScanSize" = Some vf -> float_of_str vf = Ok f ->
  int_to_float (Z.of_nat (dim0 (wData scan))) = Ok R ->
  int_to_float (Z.of_nat (dim1 (wData scan))) = Ok C ->
  (R =? 0) = false -> (s / R * 1e9 =? 0) = false ->
  (C =? 0) = false -> (f / C * 1e9 =? 0) = false ->
  _ibw_pixel_to_nm_scaling scan = Ok (1 / (s / R * 1e9)).
Proof.
  intros Hvs Hs Hvf Hf HR HC HR0 Hds HC0 Hdf.
  rewrite scaling_unfold.
  rewrite (axis_scaling_value _ _ _ _ _ _ Hvs Hs HR HR0 Hds).
  rewrite (axis_scaling_value _ _ _ _ _ _ Hvf Hf HC HC0 Hdf).
  reflexivity.
Qed.

Lemma C1_scaling_is_slow_axis_witness :
  _ibw_pixel_to_nm_scaling scan_axes_differ = Ok (1 / (2e-6 / 4 * 1e9)).
Proof.
  apply (C1_scaling_is_slow_axis scan_axes_differ
           (lit "2e-6") (lit "1e-6") 2e-6 1e-6 4 4);
    vm_compute; reflexivity.
Defined.

(** C7, as stated, fails: both scan sizes are numeric and not zero, both
    pixel counts are 4, and the computation raises [ZeroDivisionError],
    because the quotient [5e-324 / 4] is rounded to zero. *)
Lemma C7_underflow_counterexample :
  scan_notes scan_underflow !! lit "SlowScanSize" = Some (lit "5e-324")
  /\ float_of_str (lit "5e-324") = Ok 5e-324
  /\ (5e-324 =? 0) = false
  /\ scan_notes scan_underflow !! lit "FastScanSize" = Some (lit "1e-6")
  /\ float_of_str (lit "1e-6") = Ok 1e-6
  /\ (1e-6 =? 0) = false
  /\ dim0 (wData scan_underflow) = 4%nat
  /\ dim1 (wData scan_underflow) = 4%nat
  /\ _ibw_pixel_to_nm_scaling scan_underflow = Raise ZeroDivisionError.
Proof. repeat split; vm_compute; reflexivity. Qed.

(** C7, amended: for pixel counts that convert to the floats [R] and [C],
    the scaling computation returns a value exactly when both keys are
    present and numeric and neither pixel count nor either denominator
    [size / pixels * 1e9], as computed in floating point, is zero.  When it
    fails it raises [KeyError] for an absent key, [ValueError] for a key that
    is not numeric, or [ZeroDivisionError] for a zero pixel count or
    denominator. *)
Theorem C7_scaling_failure_conditions {elt} (scan : wave elt) (R C : float) :
  int_to_float (Z.of_nat (dim0 (wData scan))) = Ok R ->
  int_to_float (Z.of_nat (dim1 (wData scan))) = Ok C ->
  (is_Ok (_ibw_pixel_to_nm_scaling scan) <->
     exists vs vf s f,
       scan_notes scan !! lit "SlowScanSize" = Some vs /\ float_of_str vs = Ok s
       /\ scan_notes scan !! lit "FastScanSize" = Some vf /\ float_of_str vf = Ok f
       /\ (R =? 0) = false /\ (s / R * 1e9 =? 0) = false
       /\ (C =? 0) = false /\ (f / C * 1e9 =? 0) = false)
  /\ (forall e, _ibw_pixel_to_nm_scaling scan = Raise e ->
        exists key P,
          (key = lit "SlowScanSize" /\ P = R \/ key = lit "FastScanSize" /\ P = C)
          /\ (e = KeyError key /\ scan_notes scan !! key = None
              \/ e = ValueError
                 /\ (exists v, scan_notes scan !! key = Some v
                               /\ float_of_str v = Raise ValueError)
              \/ e = ZeroDivisionError
                 /\ (exists v s, scan_notes scan !! key = Some v
                                 /\ float_of_str v = Ok s
                                 /\ ((P =? 0) = true \/ (s / P * 1e9 =? 0) = true)))).
Proof.
  intros HR HC. rewrite scaling_unfold.
  pose proof (axis_scaling_outcome (scan_notes scan) (lit "SlowScanSize") _ R HR) as Os.
  pose proof (axis_scaling_outcome (scan_notes scan) (lit "FastScanSize") _ C HC) as Of.
  split.
  - split.
    + intros [a Ha].
      destruct Os as [| | | |vs s Hvs Hs HR0 Hds]; try discriminate.
      destruct Of as [| | | |vf f Hvf Hf HC0 Hdf]; try discriminate.
      exists vs, vf, s, f. tauto.
    + intros (vs & vf & s & f & Hvs & Hs & Hvf & Hf & HR0 & Hds & HC0 & Hdf).
      rewrite (axis_scaling_value _ _ _ _ _ _ Hvs Hs HR HR0 Hds).
      rewrite (axis_scaling_value _ _ _ _ _ _ Hvf Hf HC HC0 Hdf).
      simpl. eauto.
  - intros e He.
    destruct Os as [Hn|v Hv Hs|v s Hv Hs HP|v s Hv Hs HP Hd|vs s Hvs Hs HR0 Hds];
      simpl in He.
    1-4: exists (lit "SlowScanSize"), R; split; [by left|];
         injection He as <-; eauto 10.
    destruct Of as [Hn|v Hv Hf|v f Hv Hf HP|v f Hv Hf HP Hd|vf f Hvf Hf HC0 Hdf];
      simpl in He; [..|discriminate].
    all: exists (lit "FastScanSize"), C; split; [by right|];
         injection He as <-; eauto 10.
Qed.

Lemma C7_scaling_failure_conditions_witness :
  is_Ok (_ibw_pixel_to_nm_scaling scan_axes_differ).
Proof.
  apply (C7_scaling_failure_conditions scan_axes_differ 4 4);
    [vm_compute; reflexivity | vm_compute; reflexivity |].
  exists (lit "2e-6"), (lit "1e-6"), 2e-6, 1e-6.
  repeat split; vm_compute; reflexivity.
Defined.

(** ** The viewing transform *)

Section ArrayFacts.
Context {elt : Type}.
Implicit Types (rs : list (list elt)) (w : ndarray3 elt).

Lemma rev_reverse {A} (l : list A) : rev l = reverse l.
Proof. apply rev_alt. Qed.

Lemma Forall2_lookup_bind {A B} (g : A -> option B) (l : list A) (k : list B) (j : nat) :
  Forall2 (fun x y => g x = Some y) l k -> k !! j = l !! j ≫= g.
Proof.
  intros H. revert j.
  induction H as [|x y l k Hxy _ IH]; intros [|j]; simpl; auto.
Qed.

Lemma length_transpose_rows (n : nat) rs :
  Forall (fun r => length r = n) rs -> length (transpose_rows n rs) = n.
Proof.
  induction 1 as [|r rs Hr _ IH]; simpl.
  - apply length_replicate.
  - rewrite length_zip_with, IH, Hr. lia.
Qed.

Lemma transpose_rows_row_length (n : nat) rs :
  Forall (fun r => length r = n) rs ->
  Forall (fun c => length c = length rs) (transpose_rows n rs).
Proof.
  induction 1 as [|r rs Hr _ IH]; simpl.
  - apply Forall_replicate. reflexivity.
  - apply Forall_lookup. intros i c Hc.
    rewrite lookup_zip_with in Hc.
    destruct (r !! i) as [x|]; simpl in Hc; [|discriminate].
    destruct (transpose_rows n rs !! i) as [c'|] eqn:Hc'; simpl in Hc; [|discriminate].
    injection Hc as <-. simpl. f_equal.
    eapply Forall_lookup in IH; eauto.
Qed.

(** Entry [(i, j)] of the transpose is entry [(j, i)] of the rows. *)
Lemma transpose_rows_lookup (n : nat) rs (i j : nat) :
  Forall (fun r => length r = n) rs -> (i < n)%nat ->
  transpose_rows n rs !! i ≫= (fun c => c !! j) = rs !! j ≫= (fun r => r !! i).
Proof.
  intros H Hi. revert j.
  induction H as [|r rs Hr Hrs IH]; intros j; simpl.
  - rewrite lookup_replicate_2 by assumption. reflexivity.
  - rewrite lookup_zip_with.
    destruct (lookup_lt_is_Some_2 r i) as [x Hx]; [lia|].
    destruct (lookup_lt_is_Some_2 (transpose_rows n rs) i) as [c Hc];
      [rewrite length_transpose_rows by assumption; lia|].
    rewrite Hx, Hc; simpl.
    destruct j as [|j]; simpl; [by rewrite Hx|].
    rewrite <- IH, Hc. reflexivity.
Qed.

(** The plane of channel [k] of a well-formed array. *)
Lemma plane_wf w (k : nat) :
  wf3 w -> (k < dim2 w)%nat ->
  exists rs,
    plane w k = Ok {| nrows := dim0 w; ncols := dim1 w; rows := rs |}
    /\ length rs = dim0 w
    /\ Forall (fun r => length r = dim1 w) rs
    /\ forall i j, rs !! i ≫= (fun r => r !! j) = get3 w i j k.
Proof.
  intros [Hlen Hrows] Hk. unfold plane.
  destruct (decide (k < dim2 w)%nat) as [_|]; [|contradiction].
  destruct (mapM_is_Some_2 (mapM (fun col : list elt => col !! k)) (cells w))
    as [rs Hrs].
  { eapply Forall_impl; [exact Hrows|]. intros row [_ Hcols]; simpl.
    apply mapM_is_Some_2. eapply Forall_impl; [exact Hcols|].
    intros col Hcol; simpl in *. apply lookup_lt_is_Some_2. lia. }
  exists rs. rewrite Hrs; simpl. split; [reflexivity|].
  apply mapM_Some_1 in Hrs.
  split; [|split].
  - rewrite <- Hlen. symmetry. eapply Forall2_length; eauto.
  - apply Forall_lookup. intros i r Hr.
    destruct (Forall2_lookup_r _ _ _ _ _ Hrs Hr) as (row & Hrow & Hm).
    apply mapM_Some_1, Forall2_length in Hm. rewrite <- Hm.
    eapply Forall_lookup in Hrows; eauto. tauto.
  - intros i j. unfold get3.
    rewrite (Forall2_lookup_bind _ _ _ i Hrs).
    destruct (cells w !! i) as [row|] eqn:Hrow; simpl; [|reflexivity].
    destruct (Forall2_lookup_l _ _ _ _ _ Hrs Hrow) as (r & _ & Hm).
    rewrite Hm; simpl.
    apply mapM_Some_1 in Hm. apply (Forall2_lookup_bind _ _ _ j Hm).
Qed.

End ArrayFacts.

(** The view of channel [k] of a well-formed [(R, C, K)] array under an
    element-wise operation [f] has shape [(C, R)], and its entry [(i, j)] is
    [f] of the sample at [(j, C-1-i, k)]: the plane is transposed, mapped and
    then flipped upside down. *)
Lemma view_entries {elt} (times_1e9 : elt -> elt)
    (w : ndarray3 elt) (k : nat) :
  wf3 w -> (k < dim2 w)%nat ->
  exists image,
    view times_1e9 w k = Ok image
    /\ nrows image = dim1 w /\ ncols image = dim0 w /\ wf2 image
    /\ forall i j, (i < dim1 w)%nat -> (j < dim0 w)%nat ->
         exists x, get3 w j (dim1 w - 1 - i) k = Some x
                   /\ get2 image i j = Some (times_1e9 x).
Proof.
  intros Hwf Hk.
  destruct (plane_wf w k Hwf Hk) as (rs & Hp & Hlen & Hrows & Hget).
  unfold view. rewrite Hp; simpl.
  eexists; split; [reflexivity|]. unfold flipud, map2, transpose; simpl.
  pose proof (length_transpose_rows (dim1 w) rs Hrows) as HlenT.
  pose proof (transpose_rows_row_length (dim1 w) rs Hrows) as HrowT.
  split; [reflexivity|]. split; [reflexivity|]. split.
  - split; simpl.
    + rewrite length_rev, length_map. exact HlenT.
    + rewrite rev_reverse. apply Forall_reverse, Forall_fmap.
      eapply Forall_impl; [exact HrowT|].
      intros c Hc; simpl. rewrite length_map. congruence.
  - intros i j Hi Hj. unfold get2; simpl.
    rewrite rev_reverse, reverse_lookup by (rewrite length_map; lia).
    rewrite length_map, HlenT.
    replace (dim1 w - S i)%nat with (dim1 w - 1 - i)%nat by lia.
    set (i' := (dim1 w - 1 - i)%nat).
    assert (Hi' : (i' < dim1 w)%nat) by (unfold i'; lia).
    pose proof (transpose_rows_lookup (dim1 w) rs i' j Hrows Hi') as HT.
    rewrite Hget in HT.
    destruct (lookup_lt_is_Some_2 (transpose_rows (dim1 w) rs) i') as [c Hc];
      [rewrite HlenT; exact Hi'|].
    rewrite Hc in HT; simpl in HT.
    destruct (lookup_lt_is_Some_2 c j) as [x Hx].
    { eapply Forall_lookup in HrowT; eauto. simpl in HrowT. lia. }
    exists x. split; [congruence|].
    change (List.map (List.map times_1e9) (transpose_rows (dim1 w) rs))
      with (List.map times_1e9 <$> transpose_rows (dim1 w) rs).
    rewrite list_lookup_fmap, Hc; simpl.
    change (List.map times_1e9 c) with (times_1e9 <$> c).
    rewrite list_lookup_fmap, Hx. reflexivity.
Qed.

(** The arrays of the examples are well formed. *)
Ltac solve_wf :=
  split; [reflexivity | repeat (constructor; try (split; [reflexivity|]))].

Lemma wf3_ramp232 : wf3 ramp232.
Proof. solve_wf. Qed.

Lemma wf3_ramp441 : wf3 (ramp 4 4 1).
Proof. solve_wf. Qed.

Lemma view_out_of_range {elt} (times_1e9 : elt -> elt) (w : ndarray3 elt) (k : nat) :
  (dim2 w <= k)%nat -> view times_1e9 w k = Raise IndexError.
Proof. intros Hk. unfold view, plane. by rewrite decide_False by lia. Qed.

(** C9, as stated, fails: a resolved channel index need not be below the
    number of channels.  The name [Phase] is the second of two labels of a
    wave with one channel; its index 1 is resolved, no image is produced, and
    decode raises [IndexError]. *)
Lemma C9_channel_index_counterexample :
  collect_labels (labels scan_two_labels) = Ok [lit "Height"; lit "Phase"]
  /\ resolve_channel (lit "Phase") [lit "Height"; lit "Phase"] = Ok (lit "Phase")
  /\ index (lit "Phase") [lit "Height"; lit "Phase"] = Ok 1%nat
  /\ dim2 (wData scan_two_labels) = 1%nat
  /\ image_of float64 (wData scan_two_labels) 1 = Raise IndexError
  /\ open_ibw (times_1e9_of float64) example_keys scan_two_labels (lit "Phase")
     = Raise IndexError.
Proof. repeat split; vm_compute; reflexivity. Qed.

(** C9, amended: for every element type, every well-formed sample array of
    shape [(R, C, K)] and every channel index [k < K], the image has shape
    [(C, R)] and its entry [(i, j)] is the sample [wData[j][C-1-i][k]] times
    [1e9], the product taken in the element type of the array: the plane is
    transposed, scaled and then flipped upside down.  For [k >= K] no image
    is produced and [IndexError] is raised.  For binary64 samples the entry
    is the binary64 product [wData[j][C-1-i][k] * 1e9]. *)
Theorem C9_image_transpose_scale_flip :
  (forall (d : dtype) (w : ndarray3 (dt_elt d)) (k : nat),
     wf3 w ->
     ((k < dim2 w)%nat ->
        exists image,
          image_of d w k = Ok image
          /\ nrows image = dim1 w /\ ncols image = dim0 w /\ wf2 image
          /\ forall i j, (i < dim1 w)%nat -> (j < dim0 w)%nat ->
               exists x, get3 w j (dim1 w - 1 - i) k = Some x
                         /\ get2 image i j
                            = Some (dt_mul d x (dt_of_float d 1e9)))
     /\ ((dim2 w <= k)%nat -> image_of d w k = Raise IndexError))
  /\ (forall (w : ndarray3 float) (k : nat),
        wf3 w -> (k < dim2 w)%nat ->
        exists image,
          image_of float64 w k = Ok image
          /\ nrows image = dim1 w /\ ncols image = dim0 w
          /\ forall i j, (i < dim1 w)%nat -> (j < dim0 w)%nat ->
               exists x, get3 w j (dim1 w - 1 - i) k = Some x
                         /\ get2 image i j = Some (x * 1e9)).
Proof.
  split.
  - intros d w k Hwf. split.
    + intros Hk. exact (view_entries (times_1e9_of d) w k Hwf Hk).
    + intros Hk. by apply view_out_of_range.
  - intros w k Hwf Hk.
    destruct (view_entries (times_1e9_of float64) w k Hwf Hk)
      as (image & Hv & Hr & Hc & _ & He).
    exists image. repeat split; auto.
Qed.

Lemma C9_image_transpose_scale_flip_witness :
  exists image,
    image_of float64 ramp232 1 = Ok image
    /\ nrows image = 3%nat /\ ncols image = 2%nat
    /\ forall i j, (i < 3)%nat -> (j < 2)%nat ->
         exists x, get3 ramp232 j (3 - 1 - i) 1 = Some x
                   /\ get2 image i j = Some (x * 1e9).
Proof.
  apply (proj2 C9_image_transpose_scale_flip ramp232 1%nat).
  - exact wf3_ramp232.
  - simpl. lia.
Defined.

(** The image of channel 1 of the 2 x 3 x 2 example under [image_of]. *)
Example image_of_ramp232 :
  rows <$> image_of float64 ramp232 1
  = Ok [[5e9; 11e9]; [3e9; 9e9]; [1e9; 7e9]].
Proof. vm_compute. reflexivity. Qed.

(** The image of channel 1 of the 2 x 3 x 2 example, row by row. *)
Example view_ramp232 :
  rows <$> view float_times_1e9 ramp232 1
  = Ok [[5e9; 11e9]; [3e9; 9e9]; [1e9; 7e9]].
Proof. vm_compute. reflexivity. Qed.

(** ** Channel resolution *)

Lemma resolve_channel_Ok (channel c : str) (ls : list str) :
  resolve_channel channel ls = Ok c ->
  c ∈ ls /\ (c = channel \/ ls !! O = Some c).
Proof.
  unfold resolve_channel. case_bool_decide as Hin.
  - intros [= <-]. auto.
  - intros H%or_raise_Ok_inv. split; [|by right].
    eapply list_elem_of_lookup_2; eauto.
Qed.

Lemma resolve_channel_absent (channel l0 : str) (rest : list str) :
  channel ∉ l0 :: rest -> resolve_channel channel (l0 :: rest) = Ok l0.
Proof. intros H. unfold resolve_channel. by rewrite bool_decide_eq_false_2. Qed.

Lemma resolve_channel_present (channel : str) (ls : list str) :
  channel ∈ ls -> resolve_channel channel ls = Ok channel.
Proof. intros H. unfold resolve_channel. by rewrite bool_decide_eq_true_2. Qed.

Lemma index_head (c : str) (rest : list str) : index c (c :: rest) = Ok O.
Proof. simpl. by rewrite decide_True. Qed.

Lemma index_Ok (c : str) (ls : list str) (i : nat) :
  index c ls = Ok i -> ls !! i = Some c.
Proof.
  revert i. induction ls as [|y ls IH]; simpl; intros i; [discriminate|].
  case_decide as Hy.
  - intros [= <-]. by subst.
  - intros (j & Hj & ->)%fmap_Ok_inv. simpl. auto.
Qed.

Lemma open_ibw_unfold {elt} (times_1e9 : elt -> elt) (keys : list str)
    (scan : wave elt) (channel : str) :
  open_ibw times_1e9 keys scan channel
  = (labels ← collect_labels (labels scan);
     channel ← resolve_channel channel labels;
     open_ibw_from times_1e9 keys scan labels channel).
Proof. reflexivity. Qed.

(** C6, as stated, fails: when the wave has no non-empty label, the list of
    labels is empty, the requested name is not in it, and decode raises
    [IndexError] at [labels[0]]. *)
Lemma C6_empty_labels_counterexample :
  collect_labels (labels scan_no_labels) = Ok []
  /\ open_ibw float_times_1e9 example_keys scan_no_labels (lit "Height")
     = Raise IndexError.
Proof. split; vm_compute; reflexivity. Qed.

(** C6, amended: when the list of non-empty labels is not empty and the
    requested name is not in it, channel resolution does not fail: decode
    continues with the label at index 0 and the plane of channel index 0,
    exactly as if that label had been requested. *)
Theorem C6_absent_channel_falls_back {elt} (times_1e9 : elt -> elt)
    (keys : list str) (scan : wave elt) (channel l0 : str) (rest : list str) :
  collect_labels (labels scan) = Ok (l0 :: rest) ->
  channel ∉ l0 :: rest ->
  open_ibw times_1e9 keys scan channel
  = (image ← view times_1e9 (wData scan) 0;
     scaling ← _ibw_pixel_to_nm_scaling scan;
     file_metadata ←
       normalise keys
         (<[lit "scaling_factor" := VFloat scaling]> (VStr <$> scan_notes scan))
         scaling l0;
     Ok (image, file_metadata, l0 :: rest))
  /\ open_ibw times_1e9 keys scan channel = open_ibw times_1e9 keys scan l0.
Proof.
  intros Hls Hin.
  assert (E : forall c, resolve_channel c (l0 :: rest) = Ok l0 ->
     open_ibw times_1e9 keys scan c
     = (image ← view times_1e9 (wData scan) 0;
        scaling ← _ibw_pixel_to_nm_scaling scan;
        file_metadata ←
          normalise keys
            (<[lit "scaling_factor" := VFloat scaling]> (VStr <$> scan_notes scan))
            scaling l0;
        Ok (image, file_metadata, l0 :: rest))).
  { intros c Hc. rewrite open_ibw_unfold, Hls; simpl. rewrite Hc; simpl.
    unfold open_ibw_from. rewrite index_head. reflexivity. }
  rewrite (E channel) by (by apply resolve_channel_absent).
  rewrite (E l0) by (apply resolve_channel_present; left).
  split; reflexivity.
Qed.

Lemma C6_absent_channel_falls_back_witness :
  open_ibw float_times_1e9 example_keys scan_axes_differ (lit "Phase")
  = open_ibw float_times_1e9 example_keys scan_axes_differ (lit "Height").
Proof.
  apply (C6_absent_channel_falls_back float_times_1e9 example_keys
           scan_axes_differ (lit "Phase") (lit "Height") []).
  - vm_compute. reflexivity.
  - intros H. apply list_elem_of_singleton in H. vm_compute in H. discriminate.
Defined.

(** ** Metadata assembly *)

Lemma fold_insert_notin (keys : list str) (values : list pyval)
    (acc : gmap str pyval) (k : str) :
  k ∉ keys ->
  fold_left (fun d kv => <[kv.1 := kv.2]> d) (zip keys values) acc !! k = acc !! k.
Proof.
  revert values acc.
  induction keys as [|k' keys IH]; intros [|v values] acc Hk; simpl; auto.
  apply not_elem_of_cons in Hk as [Hne Hk].
  rewrite IH by assumption. by rewrite lookup_insert_ne.
Qed.

(** With distinct keys, the record pairs key [i] with value [i]. *)
Lemma dict_of_zip_lookup (keys : list str) (values : list pyval) (i : nat) (k : str) :
  NoDup keys -> length keys = length values -> keys !! i = Some k ->
  dict_of_zip keys values !! k = values !! i.
Proof.
  unfold dict_of_zip. generalize (∅ : gmap str pyval).
  revert values i.
  induction keys as [|k' keys IH]; intros [|v values] i acc Hnd Hlen Hi;
    simpl in *; try discriminate.
  apply NoDup_cons in Hnd as [Hk' Hnd].
  destruct i as [|i]; simpl in *.
  - injection Hi as ->. rewrite fold_insert_notin by assumption.
    by rewrite lookup_insert_eq.
  - apply IH; auto.
Qed.

Lemma assemble_spec (keys : list str) (values : list pyval) :
  length values = length keys /\ assemble keys values = Ok (dict_of_zip keys values)
  \/ length values <> length keys /\ assemble keys values = Raise ValueError.
Proof. unfold assemble. case_decide; [right | left]; auto. Qed.

Lemma normalise_unfold (keys : list str) (md : gmap str pyval) (scaling : float)
    (channel : str) (x_range_nm : float) (y_pixels x_pixels : Z)
    (scan_rate : float) (line_rate fps : pyval) :
  note_fields md = Ok (x_range_nm, y_pixels, x_pixels, scan_rate) ->
  line_rate_of y_pixels scan_rate = Ok line_rate ->
  fps_of y_pixels scan_rate = Ok fps ->
  normalise keys md scaling channel
  = assemble keys
      (value_list x_range_nm fps line_rate y_pixels x_pixels scaling channel).
Proof. intros H1 H2 H3. unfold normalise. rewrite H1; simpl. by rewrite H2, H3. Qed.

Lemma normalise_Ok_inv (keys : list str) (md : gmap str pyval) (scaling : float)
    (channel : str) (r : gmap str pyval) :
  normalise keys md scaling channel = Ok r ->
  exists x_range_nm y_pixels x_pixels scan_rate line_rate fps,
    note_fields md = Ok (x_range_nm, y_pixels, x_pixels, scan_rate)
    /\ line_rate_of y_pixels scan_rate = Ok line_rate
    /\ fps_of y_pixels scan_rate = Ok fps
    /\ assemble keys
         (value_list x_range_nm fps line_rate y_pixels x_pixels scaling channel)
       = Ok r.
Proof.
  unfold normalise. intros H.
  apply bind_Ok_inv in H as ([[[x y] xp] rate] & Hf & H).
  apply bind_Ok_inv in H as (lr & Hlr & H).
  apply bind_Ok_inv in H as (fps & Hfps & H).
  exists x, y, xp, rate, lr, fps. auto.
Qed.

(** C8: once the fields, the line rate and the frame rate have been
    computed, assembly either finds that the value list is as long as the
    schema and returns the record that pairs the schema keys with the values
    in order, or finds that the lengths differ and raises [ValueError]. *)
Theorem C8_assembly_matches_schema (keys : list str) (md : gmap str pyval)
    (scaling : float) (channel : str) (x_range_nm : float)
    (y_pixels x_pixels : Z) (scan_rate : float) (line_rate fps : pyval) :
  note_fields md = Ok (x_range_nm, y_pixels, x_pixels, scan_rate) ->
  line_rate_of y_pixels scan_rate = Ok line_rate ->
  fps_of y_pixels scan_rate = Ok fps ->
  length (value_list x_range_nm fps line_rate y_pixels x_pixels scaling channel)
    = length keys
  /\ normalise keys md scaling channel
     = Ok (dict_of_zip keys
             (value_list x_range_nm fps line_rate y_pixels x_pixels scaling channel))
  /\ (NoDup keys -> forall i k, keys !! i = Some k ->
        dict_of_zip keys
          (value_list x_range_nm fps line_rate y_pixels x_pixels scaling channel) !! k
        = value_list x_range_nm fps line_rate y_pixels x_pixels scaling channel !! i)
  \/ length (value_list x_range_nm fps line_rate y_pixels x_pixels scaling channel)
       <> length keys
     /\ normalise keys md scaling channel = Raise ValueError.
Proof.
  intros H1 H2 H3. rewrite (normalise_unfold _ _ _ _ _ _ _ _ _ _ H1 H2 H3).
  destruct (assemble_spec keys
    (value_list x_range_nm fps line_rate y_pixels x_pixels scaling channel))
    as [[Hlen E]|[Hlen E]]; [left | right]; auto.
  repeat split; auto.
  intros Hnd i k Hi. by apply dict_of_zip_lookup.
Qed.

Lemma C8_assembly_matches_schema_witness :
  normalise example_keys
    (metadata_dict (extract_metadata (str_of_bytes full_note)) 1) 1 (lit "Height")
  = Ok (dict_of_zip example_keys
          (value_list 4 (VFloat 0.125) (VFloat 0.5) 4 4 1 (lit "Height"))).
Proof.
  destruct (C8_assembly_matches_schema example_keys
              (metadata_dict (extract_metadata (str_of_bytes full_note)) 1)
              1 (lit "Height") 4 4 4 2 (VFloat 0.5) (VFloat 0.125))
    as [(_ & E & _)|[Hlen _]].
  - vm_compute. reflexivity.
  - vm_compute. reflexivity.
  - vm_compute. reflexivity.
  - exact E.
  - exfalso. apply Hlen. reflexivity.
Defined.

(** C10: when decode returns, the list of labels it returns is not empty,
    and the channel name in the value list of the record is one of the
    labels: the requested name, or the label at index 0.  With distinct
    schema keys the record holds that name under the eighth key. *)
Theorem C10_channel_is_a_label {elt} (times_1e9 : elt -> elt) (keys : list str)
    (scan : wave elt) (channel : str)
    (image : ndarray2 elt) (file_metadata : gmap str pyval) (ls : list str) :
  open_ibw times_1e9 keys scan channel = Ok (image, file_metadata, ls) ->
  ls <> []
  /\ exists c values,
       c ∈ ls /\ (c = channel \/ ls !! O = Some c)
       /\ values !! 7%nat = Some (VStr c)
       /\ length values = length keys
       /\ file_metadata = dict_of_zip keys values
       /\ (NoDup keys -> forall k, keys !! 7%nat = Some k ->
             file_metadata !! k = Some (VStr c)).
Proof.
  rewrite open_ibw_unfold. intros H.
  apply bind_Ok_inv in H as (labels & Hls & H).
  apply bind_Ok_inv in H as (c & Hc & H).
  apply resolve_channel_Ok in Hc as [Hin Hc].
  unfold open_ibw_from in H.
  apply bind_Ok_inv in H as (idx & _ & H).
  apply bind_Ok_inv in H as (img & _ & H).
  apply bind_Ok_inv in H as (scaling & _ & H).
  apply bind_Ok_inv in H as (md & Hmd & H).
  injection H as -> -> ->.
  split; [intros ->; by apply elem_of_nil in Hin|].
  apply normalise_Ok_inv in Hmd as (x & y & xp & rate & lr & fps & _ & _ & _ & Ha).
  destruct (assemble_spec keys (value_list x fps lr y xp scaling c))
    as [[Hlen E]|[_ E]]; rewrite E in Ha; [|discriminate].
  injection Ha as <-.
  exists c, (value_list x fps lr y xp scaling c).
  repeat split; auto.
  intros Hnd k Hk. by rewrite (dict_of_zip_lookup _ _ 7 k).
Qed.

Lemma C10_channel_is_a_label_witness :
  [lit "Height"] <> []
  /\ exists c values,
       c ∈ [lit "Height"] /\ (c = lit "Phase" \/ [lit "Height"] !! O = Some c)
       /\ values !! 7%nat = Some (VStr c)
       /\ length values = length example_keys
       /\ dict_of_zip example_keys
            (value_list 4 (VFloat 0.125) (VFloat 0.5) 4 4 1 (lit "Height"))
          = dict_of_zip example_keys values
       /\ (NoDup example_keys -> forall k, example_keys !! 7%nat = Some k ->
             dict_of_zip example_keys
               (value_list 4 (VFloat 0.125) (VFloat 0.5) 4 4 1 (lit "Height")) !! k
             = Some (VStr c)).
Proof.
  apply (C10_channel_is_a_label float_times_1e9 example_keys
           {| note := full_note; labels := [[bytes_of "Height"]];
              wData := ramp 4 4 1 |}
           (lit "Phase")
           {| nrows := 4; ncols := 4;
              rows := [[3e9; 7e9; 11e9; 15e9]; [2e9; 6e9; 10e9; 14e9];
                       [1e9; 5e9; 9e9; 13e9]; [0; 4e9; 8e9; 12e9]] |}).
  vm_compute. reflexivity.
Defined.

(** ** The fields read from the notes *)

Lemma get_metadata_dict (notes : gmap str str) (scaling : float) (key : str) :
  key <> lit "scaling_factor" ->
  get (metadata_dict notes scaling) key (VStr (lit "0"))
  = VStr (default (lit "0") (notes !! key)).
Proof.
  intros Hne. unfold get, metadata_dict.
  rewrite lookup_insert_ne by congruence. rewrite lookup_fmap.
  by destruct (notes !! key).
Qed.

(** Lines 94-97 on the dictionary that [open_ibw] builds: each field is
    converted from the note of its key, or from ["0"] when the key is
    absent. *)
Lemma note_fields_metadata_dict (notes : gmap str str) (scaling : float) :
  note_fields (metadata_dict notes scaling)
  = (x ← float_of_str (default (lit "0") (notes !! lit "FastScanSize"));
     y_pixels ← int_of_str (default (lit "0") (notes !! lit "ScanLines"));
     x_pixels ← int_of_str (default (lit "0") (notes !! lit "ScanPoints"));
     scan_rate ← float_of_str (default (lit "0") (notes !! lit "ScanRate"));
     Ok (x * 1e9, y_pixels, x_pixels, scan_rate)).
Proof.
  unfold note_fields. rewrite !get_metadata_dict by (vm_compute; discriminate).
  reflexivity.
Qed.

Lemma float_of_str_0 : float_of_str (lit "0") = Ok 0.
Proof. vm_compute. reflexivity. Qed.

Lemma int_of_str_0 : int_of_str (lit "0") = Ok 0%Z.
Proof. vm_compute. reflexivity. Qed.

Lemma zero_times_1e9 : 0 * 1e9 = 0.
Proof. vm_compute. reflexivity. Qed.

Lemma convertible_default {A} (conv : str -> result A) (notes : gmap str str)
    (key : str) (zero : A) :
  conv (lit "0") = Ok zero ->
  (is_Ok (conv (default (lit "0") (notes !! key))) <-> convertible conv notes key).
Proof.
  intros H0. unfold convertible.
  destruct (notes !! key) as [v|]; simpl.
  - split; [intros H v' [= <-]; exact H | auto].
  - rewrite H0. split; [intros _ v'; discriminate | eauto].
Qed.

(** C4, as stated, fails: a [ScanLines] note that is present and not numeric
    does not give a pixel count of 0; the conversion raises [ValueError],
    and so does decode. *)
Lemma C4_non_numeric_counterexample :
  scan_notes scan_bad_lines !! lit "ScanLines" = Some (lit "abc")
  /\ int_of_str (lit "abc") = Raise ValueError
  /\ note_fields (metadata_dict (scan_notes scan_bad_lines) 1) = Raise ValueError
  /\ open_ibw float_times_1e9 example_keys scan_bad_lines (lit "Height")
     = Raise ValueError.
Proof. repeat split; vm_compute; reflexivity. Qed.

Ltac absurd_is_Ok :=
  match goal with
  | H : is_Ok (Raise _) |- _ => destruct H; discriminate
  end.

(** C4, amended: on the dictionary that [open_ibw] builds from the notes,
    the fast-axis range is the [FastScanSize] note times 1e9 and the pixel
    counts are the integers of the [ScanLines] and [ScanPoints] notes; a field
    whose key is absent is 0.  The fields are obtained exactly when every
    key that is present converts; a key that is present and not numeric
    raises [ValueError]. *)
Theorem C4_fields_default_only_when_absent (notes : gmap str str) (scaling : float) :
  (is_Ok (note_fields (metadata_dict notes scaling)) <->
     convertible float_of_str notes (lit "FastScanSize")
     /\ convertible int_of_str notes (lit "ScanLines")
     /\ convertible int_of_str notes (lit "ScanPoints")
     /\ convertible float_of_str notes (lit "ScanRate"))
  /\ (forall e, note_fields (metadata_dict notes scaling) = Raise e ->
        e = ValueError)
  /\ (forall x_range_nm y_pixels x_pixels scan_rate,
        note_fields (metadata_dict notes scaling)
        = Ok (x_range_nm, y_pixels, x_pixels, scan_rate) ->
        match notes !! lit "FastScanSize" with
        | Some v => exists x, float_of_str v = Ok x /\ x_range_nm = x * 1e9
        | None => x_range_nm = 0
        end
        /\ match notes !! lit "ScanLines" with
           | Some v => int_of_str v = Ok y_pixels
           | None => y_pixels = 0%Z
           end
        /\ match notes !! lit "ScanPoints" with
           | Some v => int_of_str v = Ok x_pixels
           | None => x_pixels = 0%Z
           end).
Proof.
  rewrite note_fields_metadata_dict.
  pose proof (convertible_default float_of_str notes (lit "FastScanSize") _
                float_of_str_0) as C1.
  pose proof (convertible_default int_of_str notes (lit "ScanLines") _
                int_of_str_0) as C2.
  pose proof (convertible_default int_of_str notes (lit "ScanPoints") _
                int_of_str_0) as C3.
  pose proof (convertible_default float_of_str notes (lit "ScanRate") _
                float_of_str_0) as C4.
  split; [|split].
  - rewrite <- C1, <- C2, <- C3, <- C4. clear.
    destruct (float_of_str (default _ (notes !! lit "FastScanSize")));
      [|simpl; split; [intros ? | intros (? & ? & ? & ?)]; absurd_is_Ok].
    destruct (int_of_str (default _ (notes !! lit "ScanLines")));
      [|simpl; split; [intros ? | intros (? & ? & ? & ?)]; absurd_is_Ok].
    destruct (int_of_str (default _ (notes !! lit "ScanPoints")));
      [|simpl; split; [intros ? | intros (? & ? & ? & ?)]; absurd_is_Ok].
    destruct (float_of_str (default _ (notes !! lit "ScanRate")));
      [|simpl; split; [intros ? | intros (? & ? & ? & ?)]; absurd_is_Ok].
    simpl. split; intros; repeat split; eauto.
  - intros e.
    destruct (float_of_str (default _ (notes !! lit "FastScanSize"))) eqn:E1;
      simpl; [|intros [= <-]; eapply float_of_str_Raise; eauto].
    destruct (int_of_str (default _ (notes !! lit "ScanLines"))) eqn:E2;
      simpl; [|intros [= <-]; eapply int_of_str_Raise; eauto].
    destruct (int_of_str (default _ (notes !! lit "ScanPoints"))) eqn:E3;
      simpl; [|intros [= <-]; eapply int_of_str_Raise; eauto].
    destruct (float_of_str (default _ (notes !! lit "ScanRate"))) eqn:E4;
      simpl; [discriminate|intros [= <-]; eapply float_of_str_Raise; eauto].
  - intros xr y xp rate H.
    apply bind_Ok_inv in H as (x & Hx & H).
    apply bind_Ok_inv in H as (y' & Hy & H).
    apply bind_Ok_inv in H as (xp' & Hxp & H).
    apply bind_Ok_inv in H as (rate' & Hrate & H).
    injection H as <- <- <- <-.
    repeat split.
    + destruct (notes !! lit "FastScanSize") as [v|]; simpl in Hx; [eauto|].
      rewrite float_of_str_0 in Hx. injection Hx as <-. apply zero_times_1e9.
    + destruct (notes !! lit "ScanLines") as [v|]; simpl in Hy; [auto|].
      rewrite int_of_str_0 in Hy. congruence.
    + destruct (notes !! lit "ScanPoints") as [v|]; simpl in Hxp; [auto|].
      rewrite int_of_str_0 in Hxp. congruence.
Qed.

(** ** Line rate and frames per second *)

Lemma fps_of_zero_rate (y_pixels : Z) (scan_rate : float) :
  (scan_rate =? 0) = true -> fps_of y_pixels scan_rate = Ok (VInt 0).
Proof. unfold fps_of. intros ->. reflexivity. Qed.

Lemma fps_of_value (y_pixels : Z) (scan_rate Y : float) :
  (scan_rate =? 0) = false -> int_to_float y_pixels = Ok Y ->
  (Y * scan_rate =? 0) = false ->
  fps_of y_pixels scan_rate = Ok (VFloat (1 / (Y * scan_rate))).
Proof.
  intros Hr HY Hd. unfold fps_of, int_mul_float, int_div_float.
  rewrite Hr, HY, int_to_float_1. unfold truediv; simpl. by rewrite Hd.
Qed.

Lemma fps_of_zero_divisor (y_pixels : Z) (scan_rate Y : float) :
  (scan_rate =? 0) = false -> int_to_float y_pixels = Ok Y ->
  (Y * scan_rate =? 0) = true ->
  fps_of y_pixels scan_rate = Raise ZeroDivisionError.
Proof.
  intros Hr HY Hd. unfold fps_of, int_mul_float, int_div_float.
  rewrite Hr, HY, int_to_float_1. unfold truediv; simpl. by rewrite Hd.
Qed.

(** C5 does not hold of the code: the guard of line 101 tests the scan rate
    only.  With a pixel count of 0 and a scan rate of 2 the divisor
    [y_pixels * scan_rate] is zero and the division raises
    [ZeroDivisionError]; a wave without a [ScanLines] note reaches it. *)
Theorem C5_fps_zero_pixel_count_raises :
  note_fields (metadata_dict (scan_notes scan_no_lines) 1) = Ok (4, 0%Z, 0%Z, 2)
  /\ line_rate_of 0 2 = Ok (VInt 0)
  /\ fps_of 0 2 = Raise ZeroDivisionError
  /\ open_ibw float_times_1e9 example_keys scan_no_lines (lit "Height")
     = Raise ZeroDivisionError.
Proof. repeat split; vm_compute; reflexivity. Qed.

(** ** End to end *)

(** The key of the first line of a [bytes] note carries the opening [b'] of
    the [repr]. *)
Example first_note_key_prefixed :
  scan_notes scan_c3 !! lit "FastScanSize" = None
  /\ scan_notes scan_c3 !! lit "b'FastScanSize" = Some (lit "4e-9")
  /\ scan_notes scan_c3 !! lit "ScanLines" = Some (lit "4").
Proof. repeat split; vm_compute; reflexivity. Qed.

(** C3, as stated, fails: the notes of the claim have no [SlowScanSize],
    which the scaling requires, and decode raises [KeyError]. *)
Lemma C3_missing_slow_scan_size_counterexample :
  open_ibw float_times_1e9 example_keys scan_c3 (lit "Height")
  = Raise (KeyError (lit "SlowScanSize")).
Proof. vm_compute. reflexivity. Qed.

Lemma scaling_of_note {elt} (scan : wave elt) (n : bytes) (d0 d1 : nat) :
  note scan = n -> dim0 (wData scan) = d0 -> dim1 (wData scan) = d1 ->
  _ibw_pixel_to_nm_scaling scan
  = (slow ← axis_scaling (extract_metadata (str_of_bytes n)) (lit "SlowScanSize") d0;
     fast ← axis_scaling (extract_metadata (str_of_bytes n)) (lit "FastScanSize") d1;
     Ok slow).
Proof. intros <- <- <-. reflexivity. Qed.

(** C3, amended: a single-channel 4 x 4 wave with one label, whose notes
    are the lines [Note], [SlowScanSize:4e-9], [FastScanSize:4e-9],
    [ScanLines:4], [ScanPoints:4] and [ScanRate:2], decodes under any schema
    of nine keys to a 4 x 4 image and the values: frame count 1, range 4,
    frames per second 0.125, line rate 0.5, pixel counts 4 and 4, scaling 1,
    the label, [None]. *)
Theorem C3_decode_4x4 {elt} (times_1e9 : elt -> elt) (keys : list str)
    (lls : list (list bytes)) (w : ndarray3 elt) (channel name : str) :
  wf3 w -> dim0 w = 4%nat -> dim1 w = 4%nat -> dim2 w = 1%nat ->
  collect_labels lls = Ok [name] ->
  length keys = 9%nat ->
  exists image,
    open_ibw times_1e9 keys {| note := full_note; labels := lls; wData := w |}
      channel
    = Ok (image,
          dict_of_zip keys
            (value_list 4 (VFloat 0.125) (VFloat 0.5) 4 4 1 name),
          [name])
    /\ nrows image = 4%nat /\ ncols image = 4%nat.
Proof.
  intros Hwf Hd0 Hd1 Hd2 Hls Hkeys.
  rewrite open_ibw_unfold. cbn [labels]. rewrite Hls, bind_Ok.
  assert (Hc : resolve_channel channel [name] = Ok name).
  { unfold resolve_channel. case_bool_decide as Hin; [|reflexivity].
    apply list_elem_of_singleton in Hin. by subst. }
  rewrite Hc, bind_Ok. unfold open_ibw_from. rewrite index_head, bind_Ok.
  destruct (plane_wf w 0 Hwf) as (rs & Hp & _); [lia|].
  unfold view. cbn [wData]. rewrite Hp, !bind_Ok.
  rewrite (scaling_of_note _ full_note 4 4) by (cbn; auto).
  assert (Hs : (slow ← axis_scaling (extract_metadata (str_of_bytes full_note))
                         (lit "SlowScanSize") 4;
                fast ← axis_scaling (extract_metadata (str_of_bytes full_note))
                         (lit "FastScanSize") 4;
                Ok slow) = Ok 1) by (vm_compute; reflexivity).
  rewrite Hs, bind_Ok. cbn [note].
  change (<[lit "scaling_factor" := VFloat 1]>
            (VStr <$> extract_metadata (str_of_bytes full_note)))
    with (metadata_dict (extract_metadata (str_of_bytes full_note)) 1).
  rewrite (normalise_unfold keys _ 1 name 4 4 4 2 (VFloat 0.5) (VFloat 0.125))
    by (vm_compute; reflexivity).
  unfold assemble. rewrite decide_False by (rewrite Hkeys; simpl; auto).
  rewrite bind_Ok. eexists. split; [reflexivity|].
  cbn. auto.
Qed.

Lemma C3_decode_4x4_witness :
  exists image,
    open_ibw float_times_1e9 example_keys
      {| note := full_note; labels := [[bytes_of "Height"]]; wData := ramp 4 4 1 |}
      (lit "Height")
    = Ok (image,
          dict_of_zip example_keys
            (value_list 4 (VFloat 0.125) (VFloat 0.5) 4 4 1 (lit "Height")),
          [lit "Height"])
    /\ nrows image = 4%nat /\ ncols image = 4%nat.
Proof.
  apply (C3_decode_4x4 float_times_1e9 example_keys [[bytes_of "Height"]]
           (ramp 4 4 1) (lit "Height") (lit "Height")).
  - exact wf3_ramp441.
  - reflexivity.
  - reflexivity.
  - reflexivity.
  - vm_compute. reflexivity.
  - reflexivity.
Defined.

(** * Further properties of the reader *)

(** ** Whitespace trimming *)

Lemma lstrip_head (s : str) (c : N) (r : str) :
  lstrip s = c :: r -> is_space c = false.
Proof.
  induction s as [|d s IH]; simpl; [discriminate|].
  destruct (is_space d) eqn:Hd; [exact IH|]. intros [= <- <-]. exact Hd.
Qed.

Lemma lstrip_fix (s : str) :
  (forall c r, s = c :: r -> is_space c = false) -> lstrip s = s.
Proof.
  destruct s as [|c r]; simpl; [reflexivity|].
  intros H. by rewrite (H c r eq_refl).
Qed.

Lemma lstrip_suffix (s : str) : exists pre, s = pre ++ lstrip s.
Proof.
  induction s as [|c s [pre IH]]; simpl; [by exists []|].
  destruct (is_space c).
  - exists (c :: pre). simpl. by rewrite <- IH.
  - by exists [].
Qed.

Lemma lstrip_idem (s : str) : lstrip (lstrip s) = lstrip s.
Proof. apply lstrip_fix. intros c r H. by apply lstrip_head in H. Qed.

(** Trimming twice is trimming once. *)
Lemma strip_idem (s : str) : strip (strip s) = strip s.
Proof.
  unfold strip. set (t := lstrip s). set (u := lstrip (rev t)).
  assert (HA : lstrip (rev u) = rev u).
  { apply lstrip_fix. intros c r Hr.
    assert (Hu : u = rev r ++ [c]).
    { rewrite <- (rev_involutive u), Hr. reflexivity. }
    destruct (lstrip_suffix (rev t)) as [pre Hpre]. fold u in Hpre.
    assert (Ht : t = c :: rev (pre ++ rev r)).
    { rewrite <- (rev_involutive t), Hpre, Hu, app_assoc, rev_app_distr.
      reflexivity. }
    exact (lstrip_head s c _ Ht). }
  rewrite HA, rev_involutive. unfold u. by rewrite lstrip_idem.
Qed.

Lemma lstrip_Forall (P : N -> Prop) (s : str) : Forall P s -> Forall P (lstrip s).
Proof.
  induction 1 as [|c s Hc Hs IH]; simpl; [constructor|].
  destruct (is_space c); [exact IH | by constructor].
Qed.

Lemma rev_Forall {A} (P : A -> Prop) (l : list A) : Forall P l -> Forall P (rev l).
Proof. rewrite rev_reverse. apply Forall_reverse. Qed.

(** Trimming only removes characters. *)
Lemma strip_Forall (P : N -> Prop) (s : str) : Forall P s -> Forall P (strip s).
Proof.
  intros H. unfold strip.
  by apply rev_Forall, lstrip_Forall, rev_Forall, lstrip_Forall.
Qed.

(** ** The pieces of a split *)

Lemma split_go_Forall (P : N -> Prop) (sep : str) (s : str) :
  Forall P s ->
  forall skip cur, Forall P cur -> Forall (Forall P) (split_go sep skip cur s).
Proof.
  induction 1 as [|c s Hc Hs IH]; intros skip cur Hcur; simpl.
  - constructor; [by apply rev_Forall | constructor].
  - destruct skip as [|n]; [|by apply IH].
    destruct (starts_with sep (c :: s)).
    + constructor; [by apply rev_Forall | apply IH; constructor].
    + apply IH. by constructor.
Qed.

(** Every piece of [s.split(sep)] is made of characters of [s]. *)
Lemma split_Forall (P : N -> Prop) (sep s : str) :
  Forall P s -> Forall (Forall P) (split sep s).
Proof. intros H. apply split_go_Forall; [exact H | constructor]. Qed.

Lemma contains_false (c : N) (s : str) :
  contains c s = false <-> Forall (fun d => d <> c) s.
Proof.
  unfold contains. induction s as [|d s IH]; simpl.
  - split; [constructor | reflexivity].
  - rewrite orb_false_iff, IH, Forall_cons, N.eqb_neq. intuition congruence.
Qed.

Lemma split_once_Some (c : N) (s key val : str) :
  split_once c s = Some (key, val) ->
  s = key ++ c :: val /\ contains c key = false.
Proof.
  revert key. induction s as [|d s IH]; simpl; intros key; [discriminate|].
  destruct (d =? c)%N eqn:Hd.
  - intros [= <- <-]. apply N.eqb_eq in Hd as ->. auto.
  - destruct (split_once c s) as [[k v]|]; [|discriminate].
    intros [= <- <-]. destruct (IH k eq_refl) as [-> Hk]. split; [reflexivity|].
    unfold contains in *; simpl. by rewrite N.eqb_sym, Hd, Hk.
Qed.

(** ** Invariants of the notes dictionary *)

(** Whatever holds of the trimmed key and value of every line with a colon
    holds of every entry of the dictionary. *)
Lemma fold_note_line_inv (P : str -> str -> Prop) (lines : list str) :
  (forall line key val, line ∈ lines ->
     split_once colon line = Some (key, val) -> P (strip key) (strip val)) ->
  forall m : gmap str str,
    (forall k v, m !! k = Some v -> P k v) ->
    forall k v, fold_left note_line lines m !! k = Some v -> P k v.
Proof.
  induction lines as [|line lines IH]; intros HP m Hm; simpl; [exact Hm|].
  apply IH.
  - intros l key val Hl. apply HP. by right.
  - intros k v. unfold note_line.
    destruct (contains colon line); [|apply Hm].
    destruct (split_once colon line) as [[key val]|] eqn:Hs; [|apply Hm].
    destruct (decide (strip key = k)) as [<-|Hne].
    + rewrite lookup_insert_eq. intros [= <-]. eapply HP; [left|exact Hs].
    + rewrite lookup_insert_ne by assumption. apply Hm.
Qed.

Lemma extract_metadata_inv (P : str -> str -> Prop) (notes : str) :
  (forall line key val, line ∈ split backslash_r notes ->
     split_once colon line = Some (key, val) -> P (strip key) (strip val)) ->
  forall k v, extract_metadata notes !! k = Some v -> P k v.
Proof.
  intros HP. unfold extract_metadata.
  apply fold_note_line_inv; [exact HP|]. intros k v. by rewrite lookup_empty.
Qed.

(** X1: every key and every value of the dictionary that [extract_metadata]
    returns is trimmed: trimming it again changes nothing. *)
Theorem X1_notes_entries_are_trimmed (notes k v : str) :
  extract_metadata notes !! k = Some v -> strip k = k /\ strip v = v.
Proof.
  apply (extract_metadata_inv (fun k v => strip k = k /\ strip v = v)).
  intros _ key val _ _. split; apply strip_idem.
Qed.

Lemma X1_notes_entries_are_trimmed_witness :
  strip (lit "B") = lit "B" /\ strip (lit "two") = lit "two".
Proof.
  apply (X1_notes_entries_are_trimmed (lit "A:1\rB: two \r") (lit "B") (lit "two")).
  vm_compute. reflexivity.
Defined.

(** X2: no key of the dictionary contains a colon: a line is split at its
    first colon, so further colons stay in the value. *)
Theorem X2_notes_keys_have_no_colon (notes k v : str) :
  extract_metadata notes !! k = Some v -> contains colon k = false.
Proof.
  apply (extract_metadata_inv (fun k _ => contains colon k = false)).
  intros line key val _ Hs. apply split_once_Some in Hs as [_ Hk].
  apply contains_false. apply strip_Forall. by apply contains_false.
Qed.

Lemma X2_notes_keys_have_no_colon_witness :
  extract_metadata (lit "Time:12:30\r") !! lit "Time" = Some (lit "12:30")
  /\ contains colon (lit "Time") = false.
Proof.
  split; [vm_compute; reflexivity|].
  apply (X2_notes_keys_have_no_colon (lit "Time:12:30\r") (lit "Time") (lit "12:30")).
  vm_compute. reflexivity.
Defined.

(** X3: a text without any colon, the empty text included, gives the empty
    dictionary. *)
Theorem X3_notes_without_colon_are_empty (notes : str) :
  contains colon notes = false -> extract_metadata notes = ∅.
Proof.
  intros H. apply contains_false in H.
  pose proof (split_Forall _ backslash_r notes H) as Hp.
  unfold extract_metadata. generalize (∅ : gmap str str).
  induction Hp as [|line lines Hl _ IH]; intros m; simpl; [reflexivity|].
  rewrite note_line_no_colon by (by apply contains_false). apply IH.
Qed.

Lemma X3_notes_without_colon_are_empty_witness :
  extract_metadata (lit "garbage\rmore garbage") = ∅.
Proof.
  apply (X3_notes_without_colon_are_empty (lit "garbage\rmore garbage")).
  vm_compute. reflexivity.
Defined.

(** ** Lines of a notes text *)

Lemma starts_with_backslash_r_app (c : N) (s t : str) :
  starts_with backslash_r (c :: s ++ backslash_r ++ t)
  = starts_with backslash_r (c :: s).
Proof.
  destruct s as [|d s]; simpl; [|reflexivity].
  by rewrite andb_false_r.
Qed.

Lemma split_go_app_sep (s t : str) :
  forall skip cur,
    skip = O \/ skip = 1%nat /\ s <> [] ->
    split_go backslash_r skip cur (s ++ backslash_r ++ t)
    = split_go backslash_r skip cur s ++ split backslash_r t.
Proof.
  induction s as [|c s IH]; intros skip cur Hskip.
  - destruct Hskip as [->|[_ H]]; [reflexivity | congruence].
  - destruct Hskip as [->|[-> _]].
    + change ((c :: s) ++ backslash_r ++ t) with (c :: s ++ backslash_r ++ t).
      cbn [split_go]. rewrite starts_with_backslash_r_app.
      destruct (starts_with backslash_r (c :: s)) eqn:Hst.
      * rewrite <- app_comm_cons. f_equal. apply IH. right. split; [reflexivity|].
        destruct s; [|discriminate]. simpl in Hst. by rewrite andb_false_r in Hst.
      * apply IH. by left.
    + simpl. apply IH. by left.
Qed.

(** The pieces of a text with a separator in the middle are the pieces of
    the two sides. *)
Lemma split_app_sep (s t : str) :
  split backslash_r (s ++ backslash_r ++ t)
  = split backslash_r s ++ split backslash_r t.
Proof. apply split_go_app_sep. by left. Qed.

Lemma split_go_no_sep (sep line : str) :
  occurs sep line = false ->
  forall cur, split_go sep O cur line = [rev cur ++ line].
Proof.
  induction line as [|c line IH]; intros H cur.
  - simpl. by rewrite app_nil_r.
  - cbn [occurs] in H. apply orb_false_iff in H as [Hst Hocc].
    cbn [split_go]. rewrite Hst, IH by assumption. simpl.
    by rewrite <- app_assoc.
Qed.

(** A text in which the separator does not occur is one piece. *)
Lemma split_no_sep (sep line : str) :
  occurs sep line = false -> split sep line = [line].
Proof. intros H. unfold split. by rewrite split_go_no_sep. Qed.

(** X4: appending a separator and a line [key:val], in which the separator
    does not occur, to a notes text sets the trimmed key to the trimmed
    value in the dictionary and leaves the other entries: a later line
    replaces the value of an earlier line with the same key. *)
Theorem X4_later_line_wins (notes key val : str) :
  contains colon key = false ->
  occurs backslash_r (key ++ colon :: val) = false ->
  extract_metadata (notes ++ backslash_r ++ key ++ colon :: val)
  = <[strip key := strip val]> (extract_metadata notes).
Proof.
  intros Hk Hocc. unfold extract_metadata.
  rewrite split_app_sep, fold_left_app, split_no_sep by assumption.
  simpl. by apply note_line_colon.
Qed.

Lemma X4_later_line_wins_witness :
  extract_metadata (lit "A:1\rB:2" ++ backslash_r ++ lit "A" ++ colon :: lit " 3 ")
  = <[strip (lit "A") := strip (lit " 3 ")]> (extract_metadata (lit "A:1\rB:2")).
Proof.
  apply (X4_later_line_wins (lit "A:1\rB:2") (lit "A") (lit " 3 "));
    vm_compute; reflexivity.
Defined.

(** ** The text of a bytes note *)

Lemma repr_byte_printable (quote : N) (b : byte) :
  quote = 34%N \/ quote = 39%N ->
  forallb is_printable (repr_byte quote b) = true.
Proof. intros [->| ->]; destruct b; reflexivity. Qed.

Lemma forallb_Forall {A} (f : A -> bool) (l : list A) :
  forallb f l = true -> Forall (fun x => f x = true) l.
Proof.
  induction l as [|x l IH]; simpl; [constructor|].
  intros [Hx Hl]%andb_true_iff. constructor; auto.
Qed.

Lemma forallb_concat {A} (f : A -> bool) (ls : list (list A)) :
  Forall (fun l => forallb f l = true) ls -> forallb f (concat ls) = true.
Proof.
  induction 1 as [|l ls Hl _ IH]; simpl; [reflexivity|].
  by rewrite forallb_app, Hl, IH.
Qed.

(** [str] of a bytes object is printable ASCII. *)
Lemma str_of_bytes_printable (b : bytes) :
  forallb is_printable (str_of_bytes b) = true.
Proof.
  unfold str_of_bytes. cbv zeta.
  match goal with
  | |- context [if ?c then 34%N else 39%N] =>
      set (quote := if c then 34%N else 39%N)
  end.
  assert (Hq : quote = 34%N \/ quote = 39%N).
  { unfold quote. destruct (_ && _); auto. }
  cbn [forallb]. rewrite forallb_app.
  rewrite forallb_concat.
  - destruct Hq as [-> | ->]; reflexivity.
  - apply Forall_forall. intros l Hl.
    apply list_elem_of_In, in_map_iff in Hl as (x & <- & _).
    by apply repr_byte_printable.
Qed.

Lemma to_ascii_printable (s : str) :
  Forall (fun c => is_printable c = true) s -> to_ascii s = s.
Proof.
  induction 1 as [|c s Hc _ IH]; simpl; [reflexivity|]. rewrite IH.
  unfold is_printable in Hc. apply andb_true_iff in Hc as [_ Hc]. by rewrite Hc.
Qed.

(** X5: every key and every value of the notes dictionary of a wave is
    printable ASCII, because the notes are read from [str] of a bytes object;
    the conversions [float] and [int] therefore never see another
    character. *)
Theorem X5_wave_notes_are_printable_ascii {elt} (scan : wave elt) (k v : str) :
  scan_notes scan !! k = Some v ->
  Forall (fun c => is_printable c = true) k
  /\ Forall (fun c => is_printable c = true) v
  /\ to_ascii v = v.
Proof.
  intros H.
  cut (Forall (fun c => is_printable c = true) k
       /\ Forall (fun c => is_printable c = true) v).
  { intros [Hk Hv]. auto using to_ascii_printable. }
  revert k v H. unfold scan_notes.
  apply (extract_metadata_inv
           (fun k v => Forall (fun c => is_printable c = true) k
                       /\ Forall (fun c => is_printable c = true) v)).
  intros line key val Hline Hs.
  pose proof (str_of_bytes_printable (note scan)) as Hp.
  apply forallb_Forall in Hp.
  apply (split_Forall _ backslash_r) in Hp.
  rewrite Forall_forall in Hp. specialize (Hp line Hline).
  apply split_once_Some in Hs as [-> _].
  apply Forall_app in Hp as [Hk Hv]. apply Forall_cons in Hv as [_ Hv].
  split; by apply strip_Forall.
Qed.

Lemma X5_wave_notes_are_printable_ascii_witness :
  Forall (fun c => is_printable c = true) (lit "SlowScanSize")
  /\ Forall (fun c => is_printable c = true) (lit "2e-6")
  /\ to_ascii (lit "2e-6") = lit "2e-6".
Proof.
  apply (X5_wave_notes_are_printable_ascii scan_axes_differ).
  vm_compute. reflexivity.
Defined.

Lemma plain_repr_byte (b : byte) :
  plain b = true -> repr_byte 39 b = [Byte.to_N b].
Proof. destruct b; intros H; first [reflexivity | discriminate H]. Qed.

Lemma plain_code (b : byte) :
  plain b = true -> (39 =? Byte.to_N b)%N = false /\ Byte.to_N b <> 92%N.
Proof. destruct b; intros H; first [discriminate H | split; [reflexivity | discriminate]]. Qed.

Lemma plain_line_no_quote (l : bytes) :
  forallb plain l = true -> existsb (N.eqb 39) (List.map Byte.to_N l) = false.
Proof.
  induction l as [|b l IH]; cbn [forallb List.map existsb]; [reflexivity|].
  intros [Hb Hl]%andb_true_iff.
  destruct (plain_code b Hb) as [-> _]. by rewrite IH.
Qed.

Lemma plain_line_repr (l : bytes) :
  forallb plain l = true -> concat (List.map (repr_byte 39) l) = codes l.
Proof.
  induction l as [|b l IH]; cbn [forallb List.map concat codes]; [reflexivity|].
  intros [Hb Hl]%andb_true_iff.
  rewrite plain_repr_byte, IH by assumption. reflexivity.
Qed.

Lemma plain_line_no_sep (l : bytes) :
  forallb plain l = true -> Forall (fun c => c <> 92%N) (codes l).
Proof.
  induction l as [|b l IH]; cbn [forallb List.map codes]; [constructor|].
  intros [Hb Hl]%andb_true_iff. constructor; [by apply plain_code | auto].
Qed.

Lemma no_backslash_no_sep (s : str) :
  Forall (fun c => c <> 92%N) s -> occurs backslash_r s = false.
Proof.
  induction 1 as [|c s Hc _ IH]; [reflexivity|].
  cbn [occurs]. rewrite IH, orb_false_r. unfold backslash_r. cbn [starts_with].
  replace (92 =? c)%N with false; [reflexivity|].
  symmetry. apply N.eqb_neq. congruence.
Qed.

Lemma cr_lines_no_quote (lines : list bytes) :
  Forall (fun l => forallb plain l = true) lines ->
  existsb (N.eqb 39) (List.map Byte.to_N (cr_lines lines)) = false.
Proof.
  induction 1 as [|l lines Hl _ IH]; [reflexivity|].
  unfold cr_lines in *. simpl.
  rewrite !map_app, !existsb_app, IH, plain_line_no_quote by assumption.
  reflexivity.
Qed.

Lemma cr_lines_repr (lines : list bytes) :
  Forall (fun l => forallb plain l = true) lines ->
  concat (List.map (repr_byte 39) (cr_lines lines))
  = concat (List.map (fun x => x ++ backslash_r) (List.map codes lines)).
Proof.
  induction 1 as [|l lines Hl _ IH]; [reflexivity|].
  unfold cr_lines in *. simpl.
  rewrite !map_app, !concat_app, IH, plain_line_repr by assumption.
  reflexivity.
Qed.

Lemma split_lines (xs : list str) (tail : str) :
  Forall (fun x => occurs backslash_r x = false) xs ->
  split backslash_r (concat (List.map (fun x => x ++ backslash_r) xs) ++ tail)
  = xs ++ split backslash_r tail.
Proof.
  induction 1 as [|x xs Hx _ IH]; [reflexivity|].
  simpl. rewrite <- !app_assoc, split_app_sep, IH, split_no_sep by assumption.
  reflexivity.
Qed.

(** X6: for a note whose lines are ended by carriage returns and hold only
    printable ASCII other than backslash and single quote, the reader's
    split of [str(note)] gives the lines back, the first one behind the
    opening [b'] of the [repr], followed by a last piece that is the closing
    quote; the dictionary is built from exactly these lines. *)
Theorem X6_lines_of_a_plain_note (l1 : bytes) (ls : list bytes) :
  Forall (fun l => forallb plain l = true) (l1 :: ls) ->
  split backslash_r (str_of_bytes (cr_lines (l1 :: ls)))
  = (lit "b'" ++ codes l1) :: List.map codes ls ++ [lit "'"]
  /\ extract_metadata (str_of_bytes (cr_lines (l1 :: ls)))
     = fold_left note_line (List.map codes ls)
         (note_line ∅ (lit "b'" ++ codes l1)).
Proof.
  intros Hl.
  assert (E : split backslash_r (str_of_bytes (cr_lines (l1 :: ls)))
              = (lit "b'" ++ codes l1) :: List.map codes ls ++ [lit "'"]).
  { unfold str_of_bytes. cbv zeta.
    rewrite cr_lines_no_quote by assumption. cbn [andb].
    rewrite cr_lines_repr by assumption.
    change (98%N :: 39%N ::
              concat (List.map (fun x => x ++ backslash_r) (List.map codes (l1 :: ls)))
              ++ [39%N])
      with (concat (List.map (fun x => x ++ backslash_r)
                      ((lit "b'" ++ codes l1) :: List.map codes ls)) ++ [39%N]).
    rewrite split_lines; [reflexivity|].
    apply Forall_cons in Hl as [H1 Hls]. constructor.
    - apply no_backslash_no_sep. constructor; [discriminate|].
      constructor; [discriminate|]. by apply plain_line_no_sep.
    - apply Forall_forall. intros x Hx.
      apply list_elem_of_In, in_map_iff in Hx as (l & <- & Hin).
      apply no_backslash_no_sep, plain_line_no_sep.
      rewrite Forall_forall in Hls. apply Hls. by apply list_elem_of_In. }
  split; [exact E|].
  unfold extract_metadata. rewrite E. cbn [fold_left].
  rewrite fold_left_app. reflexivity.
Qed.

Lemma X6_lines_of_a_plain_note_witness :
  split backslash_r
    (str_of_bytes (cr_lines [bytes_of "Note"; bytes_of "SlowScanSize:2e-6"]))
  = (lit "b'" ++ codes (bytes_of "Note"))
      :: List.map codes [bytes_of "SlowScanSize:2e-6"] ++ [lit "'"]
  /\ extract_metadata
       (str_of_bytes (cr_lines [bytes_of "Note"; bytes_of "SlowScanSize:2e-6"]))
     = fold_left note_line (List.map codes [bytes_of "SlowScanSize:2e-6"])
         (note_line ∅ (lit "b'" ++ codes (bytes_of "Note"))).
Proof.
  apply (X6_lines_of_a_plain_note (bytes_of "Note") [bytes_of "SlowScanSize:2e-6"]).
  repeat constructor.
Defined.

Lemma split_go_head (sep : str) (s : str) :
  forall skip cur, exists x rest, split_go sep skip cur s = (rev cur ++ x) :: rest.
Proof.
  induction s as [|c s IH]; intros skip cur; simpl.
  - exists [], []. by rewrite app_nil_r.
  - destruct skip as [|n]; [|apply IH].
    destruct (starts_with sep (c :: s)).
    + eexists [], _. by rewrite app_nil_r.
    + destruct (IH O (c :: cur)) as (x & rest & ->).
      exists (c :: x), rest. simpl. by rewrite <- app_assoc.
Qed.

Lemma lstrip_app_nonspace (l : str) (c : N) :
  is_space c = false -> exists pre, lstrip (l ++ [c]) = pre ++ [c].
Proof.
  intros Hc. induction l as [|d l [pre IH]]; simpl.
  - rewrite Hc. by exists [].
  - destruct (is_space d); [by exists pre|]. by exists (d :: l).
Qed.

(** Trimming keeps a first character that is not whitespace. *)
Lemma strip_cons_nonspace (c : N) (s : str) :
  is_space c = false -> exists s', strip (c :: s) = c :: s'.
Proof.
  intros Hc. unfold strip. simpl lstrip. rewrite Hc. simpl rev.
  destruct (lstrip_app_nonspace (rev s) c Hc) as [pre ->].
  exists (rev pre). by rewrite rev_app_distr.
Qed.

(** X7: the first line of the text of a bytes note starts with the letter
    [b] of the [repr], and so does the key it defines, if it defines one:
    a key written on the first line of a note is never found under its own
    name. *)
Theorem X7_first_line_key_starts_with_b (b : bytes) :
  exists p rest,
    split backslash_r (str_of_bytes b) = (lit "b" ++ p) :: rest
    /\ forall m : gmap str str,
         note_line m (lit "b" ++ p) = m
         \/ exists k v, note_line m (lit "b" ++ p) = <[lit "b" ++ k := v]> m.
Proof.
  unfold str_of_bytes. cbv zeta.
  match goal with
  | |- context [98%N :: ?q :: ?r] => generalize (q :: r)
  end.
  intros s. unfold split. cbn [split_go].
  replace (starts_with backslash_r (98%N :: s)) with false by reflexivity.
  destruct (split_go_head backslash_r s O [98%N]) as (p & rest & ->).
  exists p, rest. split; [reflexivity|].
  intros m. change (lit "b" ++ p) with (98%N :: p).
  unfold note_line. destruct (contains colon (98%N :: p)); [|by left].
  cbn [split_once]. replace (98 =? colon)%N with false by reflexivity.
  destruct (split_once colon p) as [[k v]|]; [|by left].
  right. destruct (strip_cons_nonspace 98 k eq_refl) as [k' ->].
  by exists k', (strip v).
Qed.

(** ** More on the scaling calculator *)

(** X8: the fast-axis value is dropped from the result, yet it has to be
    computed: when the slow-axis value exists and the notes have no
    [FastScanSize], the scaling raises [KeyError] for that key. *)
Theorem X8_scaling_needs_the_fast_axis {elt} (scan : wave elt)
    (vs : str) (s R : float) :
  scan_notes scan !! lit "SlowScanSize" = Some vs -> float_of_str vs = Ok s ->
  int_to_float (Z.of_nat (dim0 (wData scan))) = Ok R ->
  (R =? 0) = false -> (s / R * 1e9 =? 0) = false ->
  scan_notes scan !! lit "FastScanSize" = None ->
  _ibw_pixel_to_nm_scaling scan = Raise (KeyError (lit "FastScanSize")).
Proof.
  intros Hvs Hs HR HR0 Hd Hf. rewrite scaling_unfold.
  rewrite (axis_scaling_value _ _ _ _ _ _ Hvs Hs HR HR0 Hd), bind_Ok.
  unfold axis_scaling. rewrite Hf. reflexivity.
Qed.

Lemma X8_scaling_needs_the_fast_axis_witness :
  _ibw_pixel_to_nm_scaling
    {| note := note_of_lines ["Note"; "SlowScanSize:2e-6"]%string;
       labels := [[bytes_of "Height"]]; wData := ramp 4 4 1 |}
  = Raise (KeyError (lit "FastScanSize")).
Proof.
  apply (X8_scaling_needs_the_fast_axis _ (lit "2e-6") 2e-6 4);
    vm_compute; reflexivity.
Defined.

Lemma axis_scaling_no_pixels (notes : gmap str str) (key v : str) (s : float) :
  notes !! key = Some v -> float_of_str v = Ok s ->
  axis_scaling notes key O = Raise ZeroDivisionError.
Proof.
  intros Hv Hs. unfold axis_scaling. rewrite Hv. cbn [or_raise].
  rewrite bind_Ok, Hs, bind_Ok.
  unfold float_div_int. change (Z.of_nat 0) with 0%Z.
  by rewrite int_to_float_0.
Qed.

(** X9: for an array without rows, or without columns when the slow-axis
    value exists, numeric scan sizes do not help: the division by the pixel
    count raises [ZeroDivisionError]. *)
Theorem X9_scaling_of_an_empty_axis {elt} (scan : wave elt) (vs : str) (s : float) :
  scan_notes scan !! lit "SlowScanSize" = Some vs -> float_of_str vs = Ok s ->
  (dim0 (wData scan) = O
   \/ (exists R vf f,
         int_to_float (Z.of_nat (dim0 (wData scan))) = Ok R
         /\ (R =? 0) = false /\ (s / R * 1e9 =? 0) = false
         /\ scan_notes scan !! lit "FastScanSize" = Some vf
         /\ float_of_str vf = Ok f
         /\ dim1 (wData scan) = O)) ->
  _ibw_pixel_to_nm_scaling scan = Raise ZeroDivisionError.
Proof.
  intros Hvs Hs [H0|(R & vf & f & HR & HR0 & Hd & Hvf & Hf & H1)];
    rewrite scaling_unfold.
  - rewrite H0, (axis_scaling_no_pixels _ _ _ _ Hvs Hs). reflexivity.
  - rewrite (axis_scaling_value _ _ _ _ _ _ Hvs Hs HR HR0 Hd), bind_Ok.
    rewrite H1, (axis_scaling_no_pixels _ _ _ _ Hvf Hf). reflexivity.
Qed.

Lemma X9_scaling_of_an_empty_axis_witness :
  _ibw_pixel_to_nm_scaling
    {| note := note_of_lines ["Note"; "SlowScanSize:2e-6"; "FastScanSize:1e-6"]%string;
       labels := [[bytes_of "Height"]]; wData := ramp 0 4 1 |}
  = Raise ZeroDivisionError.
Proof.
  apply (X9_scaling_of_an_empty_axis _ (lit "2e-6") 2e-6);
    [vm_compute; reflexivity | vm_compute; reflexivity | left; reflexivity].
Defined.

(** ** The channel labels *)

Lemma decode_Raise (b : bytes) (e : exn) :
  decode b = Raise e -> e = UnicodeDecodeError.
Proof. unfold decode. destruct (utf8_go _ _); simpl; congruence. Qed.

(** The inner loop of lines 80-82 over one list of labels. *)
Lemma collect_inner (label_list : list bytes) :
  forall acc : list str,
    (forall names,
       Forall2 (fun b name => decode b = Ok name)
         (List.filter (fun b => negb (bool_decide (b = []))) label_list) names ->
       foldM (fun acc (label : bytes) =>
                match label with
                | [] => Ok acc
                | _ :: _ => name ← decode label; Ok (acc ++ [name])
                end) acc label_list = Ok (acc ++ names))
    /\ (forall r,
          foldM (fun acc (label : bytes) =>
                   match label with
                   | [] => Ok acc
                   | _ :: _ => name ← decode label; Ok (acc ++ [name])
                   end) acc label_list = Ok r ->
          exists names,
            r = acc ++ names
            /\ Forall2 (fun b name => decode b = Ok name)
                 (List.filter (fun b => negb (bool_decide (b = []))) label_list)
                 names).
Proof.
  induction label_list as [|label l IH]; intros acc; simpl.
  - split.
    + intros names H. apply Forall2_nil_inv_l in H as ->. by rewrite app_nil_r.
    + intros r [= <-]. exists []. by rewrite app_nil_r.
  - destruct label as [|x label]; simpl; [apply IH|].
    split.
    + intros names H. apply Forall2_cons_inv_l in H as (n & ns & Hn & Hns & ->).
      rewrite Hn; simpl. rewrite (proj1 (IH _) ns Hns).
      by rewrite <- app_assoc.
    + intros r H. apply bind_Ok_inv in H as (acc' & Hacc & H).
      apply bind_Ok_inv in Hacc as (n & Hn & [= <-]).
      apply (proj2 (IH _)) in H as (ns & -> & Hns).
      exists (n :: ns). rewrite <- app_assoc. split; [reflexivity|].
      by constructor.
Qed.

Lemma collect_outer (lls : list (list bytes)) :
  forall acc : list str,
    (forall names,
       Forall2 (fun b name => decode b = Ok name)
         (List.filter (fun b => negb (bool_decide (b = []))) (concat lls)) names ->
       foldM (fun acc label_list =>
                foldM (fun acc (label : bytes) =>
                         match label with
                         | [] => Ok acc
                         | _ :: _ => name ← decode label; Ok (acc ++ [name])
                         end) acc label_list) acc lls = Ok (acc ++ names))
    /\ (forall r,
          foldM (fun acc label_list =>
                   foldM (fun acc (label : bytes) =>
                            match label with
                            | [] => Ok acc
                            | _ :: _ => name ← decode label; Ok (acc ++ [name])
                            end) acc label_list) acc lls = Ok r ->
          exists names,
            r = acc ++ names
            /\ Forall2 (fun b name => decode b = Ok name)
                 (List.filter (fun b => negb (bool_decide (b = []))) (concat lls))
                 names).
Proof.
  induction lls as [|l lls IH]; intros acc; simpl.
  - split.
    + intros names H. apply Forall2_nil_inv_l in H as ->. by rewrite app_nil_r.
    + intros r [= <-]. exists []. by rewrite app_nil_r.
  - rewrite List.filter_app. split.
    + intros names H. apply Forall2_app_inv_l in H as (n1 & n2 & H1 & H2 & ->).
      rewrite (proj1 (collect_inner l acc) n1 H1); simpl.
      rewrite (proj1 (IH _) n2 H2). by rewrite <- app_assoc.
    + intros r H. apply bind_Ok_inv in H as (acc' & Hacc & H).
      apply (proj2 (collect_inner l acc)) in Hacc as (n1 & -> & H1).
      apply (proj2 (IH _)) in H as (n2 & -> & H2).
      exists (n1 ++ n2). rewrite <- app_assoc. split; [reflexivity|].
      by apply Forall2_app.
Qed.

(** X10: the label list of lines 78-82 is made of the decoded non-empty
    labels of all the label lists, in their order: the loops return a list
    exactly when it pairs off with those labels under [decode]. *)
Theorem X10_labels_are_the_nonempty_labels_in_order
    (lls : list (list bytes)) (names : list str) :
  collect_labels lls = Ok names <->
  Forall2 (fun b name => decode b = Ok name)
    (List.filter (fun b => negb (bool_decide (b = []))) (concat lls)) names.
Proof.
  unfold collect_labels. split.
  - intros H. apply (proj2 (collect_outer lls [])) in H as (ns & -> & H).
    exact H.
  - intros H. exact (proj1 (collect_outer lls []) names H).
Qed.

Lemma utf8_go_ascii (cs : list N) :
  forallb (fun c => c <? 128)%N cs = true ->
  forall fuel, (length cs <= fuel)%nat -> utf8_go fuel cs = Some cs.
Proof.
  induction cs as [|c cs IH]; intros Hcs fuel Hfuel.
  - by destruct fuel.
  - cbn [forallb] in Hcs. apply andb_true_iff in Hcs as [Hc Hcs].
    destruct fuel as [|fuel]; [simpl in Hfuel; lia|].
    cbn [utf8_go]. rewrite Hc, IH; [reflexivity | assumption | simpl in Hfuel; lia].
Qed.

(** ASCII bytes decode to their own code points. *)
Lemma decode_ascii (b : bytes) :
  forallb (fun x => Byte.to_N x <? 128)%N b = true -> decode b = Ok (codes b).
Proof.
  intros H. unfold decode, codes. rewrite utf8_go_ascii; [reflexivity| |].
  - clear -H. induction b as [|x b IH]; [reflexivity|].
    cbn [forallb List.map] in *. apply andb_true_iff in H as [-> H]. by apply IH.
  - by rewrite length_map.
Qed.

(** X11: when every label is ASCII, the label list is made of the code
    points of the non-empty labels, in order; no label is lost, added or
    reordered. *)
Theorem X11_ascii_labels (lls : list (list bytes)) :
  Forall (fun b => forallb (fun x => Byte.to_N x <? 128)%N b = true) (concat lls) ->
  collect_labels lls
  = Ok (List.map codes
          (List.filter (fun b => negb (bool_decide (b = []))) (concat lls))).
Proof.
  intros H. unfold collect_labels.
  apply (proj1 (collect_outer lls [])).
  induction H as [|b bs Hb _ IH]; simpl; [constructor|].
  destruct (negb (bool_decide (b = []))); [|exact IH].
  constructor; [by apply decode_ascii | exact IH].
Qed.

Lemma X11_ascii_labels_witness :
  collect_labels [[]; []; [[]; bytes_of "Height"; bytes_of "Phase"]; []]
  = Ok (List.map codes
          (List.filter (fun b => negb (bool_decide (b = [])))
             (concat [[]; []; [[]; bytes_of "Height"; bytes_of "Phase"]; []]))).
Proof.
  apply (X11_ascii_labels [[]; []; [[]; bytes_of "Height"; bytes_of "Phase"]; []]).
  repeat constructor.
Defined.

Lemma decode_nonempty (b : bytes) (name : str) :
  b <> [] -> decode b = Ok name -> name <> [].
Proof.
  destruct b as [|x b]; [congruence|]. intros _ H.
  apply or_raise_Ok_inv in H. cbn [length List.map utf8_go] in H.
  repeat (match type of H with
          | context [if ?c then _ else _] => destruct c
          | context [match ?l with [] => _ | _ :: _ => _ end] => destruct l
          end; try discriminate H);
    apply fmap_Some in H as (? & _ & ->); discriminate.
Qed.

Lemma collect_labels_nonempty (lls : list (list bytes)) (names : list str) :
  collect_labels lls = Ok names -> Forall (fun name => name <> []) names.
Proof.
  intros H. apply (proj2 (collect_outer lls [])) in H as (ns & -> & H).
  simpl. remember (List.filter _ _) as bs eqn:Hbs.
  assert (Hne : Forall (fun b => b <> []) bs).
  { subst bs. apply Forall_forall. intros b Hb.
    apply list_elem_of_In, filter_In in Hb as [_ Hb].
    intros ->. discriminate. }
  clear Hbs. induction H as [|b n bs ns Hd _ IH]; [constructor|].
  apply Forall_cons in Hne as [Hb Hne].
  constructor; [by eapply decode_nonempty | auto].
Qed.

Lemma foldM_Raise_inv {A B} (f : A -> B -> result A) (P : exn -> Prop) :
  (forall a x e, f a x = Raise e -> P e) ->
  forall l a e, foldM f a l = Raise e -> P e.
Proof.
  intros Hf. induction l as [|x l IH]; intros a e; simpl; [discriminate|].
  destruct (f a x) as [a'|e'] eqn:Hfa; simpl; [apply IH|].
  intros [= <-]. by eapply Hf.
Qed.

Lemma collect_labels_Raise (lls : list (list bytes)) (e : exn) :
  collect_labels lls = Raise e -> e = UnicodeDecodeError.
Proof.
  unfold collect_labels.
  apply (foldM_Raise_inv _ (fun e => e = UnicodeDecodeError)).
  intros a l e'.
  apply (foldM_Raise_inv _ (fun e => e = UnicodeDecodeError)).
  intros acc [|x b] e''; [discriminate|].
  destruct (decode (x :: b)) eqn:Hd; simpl; [discriminate|].
  intros [= <-]. by eapply decode_Raise.
Qed.

(** X12: a label that is not empty and is not valid UTF-8 makes decode
    raise [UnicodeDecodeError], whatever the requested channel, the notes
    and the samples are. *)
Theorem X12_undecodable_label_fails {elt} (times_1e9 : elt -> elt)
    (keys : list str) (scan : wave elt) (channel : str) (b : bytes) :
  b ∈ concat (labels scan) -> b <> [] -> decode b = Raise UnicodeDecodeError ->
  open_ibw times_1e9 keys scan channel = Raise UnicodeDecodeError.
Proof.
  intros Hin Hne Hd. rewrite open_ibw_unfold.
  destruct (collect_labels (labels scan)) as [names|e] eqn:Hc; simpl.
  - exfalso. apply (proj2 (collect_outer _ [])) in Hc as (ns & _ & H).
    assert (Hb : b ∈ List.filter (fun b => negb (bool_decide (b = [])))
                       (concat (labels scan))).
    { apply list_elem_of_In, filter_In. split; [by apply list_elem_of_In|].
      by rewrite bool_decide_eq_false_2. }
    apply list_elem_of_lookup in Hb as [i Hi].
    destruct (Forall2_lookup_l _ _ _ _ _ H Hi) as (n & _ & Hn). congruence.
  - by rewrite (collect_labels_Raise _ _ Hc).
Qed.

Lemma X12_undecodable_label_fails_witness :
  open_ibw float_times_1e9 example_keys
    {| note := full_note; labels := [[bytes_of "Height"; [Byte.xff]]];
       wData := ramp 4 4 1 |} (lit "Height")
  = Raise UnicodeDecodeError.
Proof.
  apply (X12_undecodable_label_fails float_times_1e9 example_keys _
           (lit "Height") [Byte.xff]).
  - simpl. set_solver.
  - discriminate.
  - vm_compute. reflexivity.
Defined.

(** ** The channel index and the image *)

Lemma index_first (c : str) (ls : list str) (i : nat) :
  index c ls = Ok i ->
  ls !! i = Some c /\ forall j, (j < i)%nat -> ls !! j <> Some c.
Proof.
  revert i. induction ls as [|y ls IH]; simpl; intros i; [discriminate|].
  case_decide as Hy.
  - intros [= <-]. subst. split; [reflexivity | intros j Hj; lia].
  - intros (k & Hk & ->)%fmap_Ok_inv. destruct (IH k Hk) as [Hl Hfirst].
    split; [exact Hl|]. intros [|j] Hj; simpl; [congruence | apply Hfirst; lia].
Qed.

Lemma index_complete (c : str) (ls : list str) (i : nat) :
  ls !! i = Some c -> (forall j, (j < i)%nat -> ls !! j <> Some c) ->
  index c ls = Ok i.
Proof.
  revert i. induction ls as [|y ls IH]; intros i Hi Hfirst; [discriminate|].
  simpl. case_decide as Hy.
  - destruct i as [|i]; [reflexivity|].
    exfalso. apply (Hfirst O); [lia | simpl; congruence].
  - destruct i as [|i]; [simpl in Hi; congruence|].
    rewrite (IH i); [reflexivity | exact Hi |].
    intros j Hj. apply (Hfirst (S j)). lia.
Qed.

Lemma view_shape {elt} (times_1e9 : elt -> elt) (w : ndarray3 elt) (k : nat)
    (image : ndarray2 elt) :
  view times_1e9 w k = Ok image ->
  (k < dim2 w)%nat /\ nrows image = dim1 w /\ ncols image = dim0 w.
Proof.
  unfold view, plane. case_decide as Hk; [|discriminate].
  destruct (mapM _ _); simpl; [|discriminate].
  intros [= <-]. auto.
Qed.

(** X13: a decode that returns gives back the collected labels, each of
    them a non-empty name, whatever channel was requested. *)
Theorem X13_returned_labels {elt} (times_1e9 : elt -> elt) (keys : list str)
    (scan : wave elt) (channel : str)
    (image : ndarray2 elt) (file_metadata : gmap str pyval) (ls : list str) :
  open_ibw times_1e9 keys scan channel = Ok (image, file_metadata, ls) ->
  collect_labels (labels scan) = Ok ls /\ Forall (fun name => name <> []) ls.
Proof.
  rewrite open_ibw_unfold. intros H.
  apply bind_Ok_inv in H as (names & Hls & H).
  apply bind_Ok_inv in H as (c & _ & H).
  unfold open_ibw_from in H.
  apply bind_Ok_inv in H as (idx & _ & H).
  apply bind_Ok_inv in H as (img & _ & H).
  apply bind_Ok_inv in H as (scaling & _ & H).
  apply bind_Ok_inv in H as (md & _ & H).
  injection H as _ _ <-.
  split; [exact Hls | by eapply collect_labels_nonempty].
Qed.

(** A decode that returns, used by the witnesses below. *)
Lemma decode_full_note :
  open_ibw float_times_1e9 example_keys
    {| note := full_note; labels := [[bytes_of "Height"]]; wData := ramp 4 4 1 |}
    (lit "Phase")
  = Ok ({| nrows := 4; ncols := 4;
           rows := [[3e9; 7e9; 11e9; 15e9]; [2e9; 6e9; 10e9; 14e9];
                    [1e9; 5e9; 9e9; 13e9]; [0; 4e9; 8e9; 12e9]] |},
        dict_of_zip example_keys
          (value_list 4 (VFloat 0.125) (VFloat 0.5) 4 4 1 (lit "Height")),
        [lit "Height"]).
Proof. vm_compute. reflexivity. Qed.

Lemma X13_returned_labels_witness :
  collect_labels [[bytes_of "Height"]] = Ok [lit "Height"]
  /\ Forall (fun name => name <> []) [lit "Height"].
Proof.
  exact (X13_returned_labels _ _ _ _ _ _ _ decode_full_note).
Defined.

(** X14: the image that decode returns is the view of the channel whose
    index is the first position of the resolved name in the label list (the
    requested name, or the label at index 0 when the requested name is not a
    label); it has as many rows as the samples have columns, and as many
    columns as they have rows. *)
Theorem X14_image_of_first_occurrence {elt} (times_1e9 : elt -> elt)
    (keys : list str) (scan : wave elt) (channel : str)
    (image : ndarray2 elt) (file_metadata : gmap str pyval) (ls : list str) :
  open_ibw times_1e9 keys scan channel = Ok (image, file_metadata, ls) ->
  exists c i,
    (c = channel \/ ((channel ∉ ls) /\ i = O))
    /\ ls !! i = Some c
    /\ (forall j, (j < i)%nat -> ls !! j <> Some c)
    /\ (i < dim2 (wData scan))%nat
    /\ view times_1e9 (wData scan) i = Ok image
    /\ nrows image = dim1 (wData scan) /\ ncols image = dim0 (wData scan).
Proof.
  rewrite open_ibw_unfold. intros H.
  apply bind_Ok_inv in H as (names & Hls & H).
  apply bind_Ok_inv in H as (c & Hc & H).
  unfold open_ibw_from in H.
  apply bind_Ok_inv in H as (idx & Hidx & H).
  apply bind_Ok_inv in H as (img & Himg & H).
  apply bind_Ok_inv in H as (scaling & _ & H).
  apply bind_Ok_inv in H as (md & _ & H).
  injection H as <- _ <-.
  destruct (index_first _ _ _ Hidx) as [Hl Hfirst].
  destruct (view_shape _ _ _ _ Himg) as (Hk & Hr & Hcs).
  exists c, idx. repeat split; auto.
  unfold resolve_channel in Hc. case_bool_decide as Hin.
  - injection Hc as <-. by left.
  - apply or_raise_Ok_inv in Hc. right. split; [exact Hin|].
    destruct idx as [|idx]; [reflexivity|].
    exfalso. apply (Hfirst O); [lia | exact Hc].
Qed.

Lemma X14_image_of_first_occurrence_witness :
  exists c i,
    (c = lit "Phase" \/ ((lit "Phase" ∉ [lit "Height"]) /\ i = O))
    /\ [lit "Height"] !! i = Some c
    /\ (forall j, (j < i)%nat -> [lit "Height"] !! j <> Some c)
    /\ (i < 1)%nat
    /\ view float_times_1e9 (ramp 4 4 1) i
       = Ok {| nrows := 4; ncols := 4;
               rows := [[3e9; 7e9; 11e9; 15e9]; [2e9; 6e9; 10e9; 14e9];
                        [1e9; 5e9; 9e9; 13e9]; [0; 4e9; 8e9; 12e9]] |}
    /\ 4%nat = 4%nat /\ 4%nat = 4%nat.
Proof.
  exact (X14_image_of_first_occurrence _ _ _ _ _ _ _ decode_full_note).
Defined.

(** X15: the position of a label in the label list is used as the channel
    index of the samples: when the requested name first occurs at a position
    that is not below the number of channels, decode raises [IndexError]. *)
Theorem X15_label_beyond_the_channels {elt} (times_1e9 : elt -> elt)
    (keys : list str) (scan : wave elt) (channel : str) (ls : list str) (i : nat) :
  collect_labels (labels scan) = Ok ls ->
  ls !! i = Some channel ->
  (forall j, (j < i)%nat -> ls !! j <> Some channel) ->
  (dim2 (wData scan) <= i)%nat ->
  open_ibw times_1e9 keys scan channel = Raise IndexError.
Proof.
  intros Hls Hi Hfirst Hk. rewrite open_ibw_unfold, Hls, bind_Ok.
  rewrite resolve_channel_present by (eapply list_elem_of_lookup_2; eauto).
  rewrite bind_Ok. unfold open_ibw_from.
  rewrite (index_complete _ _ _ Hi Hfirst), bind_Ok.
  unfold view, plane. rewrite decide_False by lia. reflexivity.
Qed.

Lemma X15_label_beyond_the_channels_witness :
  open_ibw float_times_1e9 example_keys
    {| note := full_note; labels := [[bytes_of "Height"; bytes_of "Phase"]];
       wData := ramp 4 4 1 |} (lit "Phase")
  = Raise IndexError.
Proof.
  apply (X15_label_beyond_the_channels float_times_1e9 example_keys _
           (lit "Phase") [lit "Height"; lit "Phase"] 1).
  - vm_compute. reflexivity.
  - reflexivity.
  - intros [|j] Hj; [discriminate | lia].
  - simpl. lia.
Defined.

(** ** What a successful decode requires *)

Lemma axis_scaling_Ok_inv (notes : gmap str str) (key : str) (n : nat) (a : float) :
  axis_scaling notes key n = Ok a ->
  exists v s, notes !! key = Some v /\ float_of_str v = Ok s.
Proof.
  unfold axis_scaling. intros H.
  apply bind_Ok_inv in H as (v & Hv%or_raise_Ok_inv & H).
  apply bind_Ok_inv in H as (s & Hs & _). eauto.
Qed.

(** X16: a decode that returns had a schema of nine keys and notes with
    numeric [SlowScanSize] and [FastScanSize]; the range in its value list is
    the [FastScanSize] note times 1e9, so the default of 0 for an absent
    [FastScanSize] is never the range of a completed decode. *)
Theorem X16_requirements_of_a_decode {elt} (times_1e9 : elt -> elt)
    (keys : list str) (scan : wave elt) (channel : str)
    (image : ndarray2 elt) (file_metadata : gmap str pyval) (ls : list str) :
  open_ibw times_1e9 keys scan channel = Ok (image, file_metadata, ls) ->
  length keys = 9%nat
  /\ (exists vs s, scan_notes scan !! lit "SlowScanSize" = Some vs
                   /\ float_of_str vs = Ok s)
  /\ (exists vf f values,
        scan_notes scan !! lit "FastScanSize" = Some vf
        /\ float_of_str vf = Ok f
        /\ file_metadata = dict_of_zip keys values
        /\ values !! 1%nat = Some (VFloat (f * 1e9))).
Proof.
  rewrite open_ibw_unfold. intros H.
  apply bind_Ok_inv in H as (names & _ & H).
  apply bind_Ok_inv in H as (c & _ & H).
  unfold open_ibw_from in H.
  apply bind_Ok_inv in H as (idx & _ & H).
  apply bind_Ok_inv in H as (img & _ & H).
  apply bind_Ok_inv in H as (scaling & Hsc & H).
  apply bind_Ok_inv in H as (md & Hmd & H).
  injection H as _ <- _.
  rewrite scaling_unfold in Hsc.
  apply bind_Ok_inv in Hsc as (slow & Hslow & Hsc).
  apply bind_Ok_inv in Hsc as (fast & Hfast & _).
  apply axis_scaling_Ok_inv in Hslow as (vs & s & Hvs & Hs).
  apply axis_scaling_Ok_inv in Hfast as (vf & f & Hvf & Hf).
  change (<[lit "scaling_factor" := VFloat scaling]>
            (VStr <$> extract_metadata (str_of_bytes (note scan))))
    with (metadata_dict (scan_notes scan) scaling) in Hmd.
  apply normalise_Ok_inv in Hmd as (x & y & xp & rate & lr & fps & Hnf & _ & _ & Ha).
  destruct (assemble_spec keys (value_list x fps lr y xp scaling c))
    as [[Hlen E]|[_ E]]; rewrite E in Ha; [|discriminate].
  injection Ha as <-.
  split; [by rewrite <- Hlen|]. split; [eauto|].
  exists vf, f, (value_list x fps lr y xp scaling c).
  repeat split; auto.
  rewrite note_fields_metadata_dict, Hvf in Hnf. simpl in Hnf.
  rewrite Hf in Hnf.
  apply bind_Ok_inv in Hnf as (f' & [= <-] & Hnf).
  apply bind_Ok_inv in Hnf as (y' & _ & Hnf).
  apply bind_Ok_inv in Hnf as (xp' & _ & Hnf).
  apply bind_Ok_inv in Hnf as (r' & _ & Hnf).
  by injection Hnf as <- _ _ _.
Qed.

Lemma X16_requirements_of_a_decode_witness :
  length example_keys = 9%nat
  /\ (exists vs s,
        scan_notes {| note := full_note; labels := [[bytes_of "Height"]];
                      wData := ramp 4 4 1 |} !! lit "SlowScanSize" = Some vs
        /\ float_of_str vs = Ok s)
  /\ (exists vf f values,
        scan_notes {| note := full_note; labels := [[bytes_of "Height"]];
                      wData := ramp 4 4 1 |} !! lit "FastScanSize" = Some vf
        /\ float_of_str vf = Ok f
        /\ dict_of_zip example_keys
             (value_list 4 (VFloat 0.125) (VFloat 0.5) 4 4 1 (lit "Height"))
           = dict_of_zip example_keys values
        /\ values !! 1%nat = Some (VFloat (f * 1e9))).
Proof.
  exact (X16_requirements_of_a_decode _ _ _ _ _ _ _ decode_full_note).
Defined.

(** ** Line rate, frames per second and the record *)

(** X17: a pixel count that is not zero with a scan rate of zero (an absent
    [ScanRate] note, for one) raises [ZeroDivisionError] at line 100: the
    line rate [1 / scan_rate] is guarded by the pixel count, not by the scan
    rate. *)
Theorem X17_line_rate_division_by_zero (keys : list str) (md : gmap str pyval)
    (scaling : float) (channel : str) (x_range_nm : float)
    (y_pixels x_pixels : Z) (scan_rate : float) :
  note_fields md = Ok (x_range_nm, y_pixels, x_pixels, scan_rate) ->
  y_pixels <> 0%Z -> (scan_rate =? 0) = true ->
  normalise keys md scaling channel = Raise ZeroDivisionError.
Proof.
  intros Hnf Hy Hr. unfold normalise. rewrite Hnf, bind_Ok.
  unfold line_rate_of. apply Z.eqb_neq in Hy. rewrite Hy.
  unfold int_div_float. rewrite int_to_float_1, bind_Ok.
  unfold truediv. rewrite Hr. reflexivity.
Qed.

Lemma X17_line_rate_division_by_zero_witness :
  normalise example_keys
    (metadata_dict
       (extract_metadata
          (str_of_bytes (note_of_lines ["Note"; "ScanLines:4"]%string))) 1)
    1 (lit "Height")
  = Raise ZeroDivisionError.
Proof.
  apply (X17_line_rate_division_by_zero _ _ _ _ 0 4 0 0).
  - vm_compute. reflexivity.
  - discriminate.
  - reflexivity.
Defined.

(** X18: with a pixel count of zero and a scan rate of zero (both notes
    absent, for one) the line rate and the frames per second are both the
    integer 0, and with nine schema keys the record is returned. *)
Theorem X18_rates_default_to_zero (keys : list str) (md : gmap str pyval)
    (scaling : float) (channel : str) (x_range_nm : float)
    (x_pixels : Z) (scan_rate : float) :
  note_fields md = Ok (x_range_nm, 0%Z, x_pixels, scan_rate) ->
  (scan_rate =? 0) = true ->
  length keys = 9%nat ->
  normalise keys md scaling channel
  = Ok (dict_of_zip keys
          (value_list x_range_nm (VInt 0) (VInt 0) 0 x_pixels scaling channel)).
Proof.
  intros Hnf Hr Hlen.
  rewrite (normalise_unfold keys md scaling channel x_range_nm 0 x_pixels
             scan_rate (VInt 0) (VInt 0) Hnf).
  - unfold assemble. rewrite decide_False by (rewrite Hlen; simpl; auto).
    reflexivity.
  - reflexivity.
  - by apply fps_of_zero_rate.
Qed.

Lemma X18_rates_default_to_zero_witness :
  normalise example_keys
    (metadata_dict
       (extract_metadata (str_of_bytes (note_of_lines ["Note"]%string))) 1)
    1 (lit "Height")
  = Ok (dict_of_zip example_keys
          (value_list 0 (VInt 0) (VInt 0) 0 0 1 (lit "Height"))).
Proof.
  apply (X18_rates_default_to_zero _ _ _ _ 0 0 0).
  - vm_compute. reflexivity.
  - reflexivity.
  - reflexivity.
Defined.

(** X19: with a pixel count [y] and a scan rate [r] that are not zero and
    whose product is not zero, the line rate is the float [1 / r] and the
    frames per second the float [1 / (y * r)], and with nine schema keys the
    record is returned. *)
Theorem X19_rates_of_a_scan (keys : list str) (md : gmap str pyval)
    (scaling : float) (channel : str) (x_range_nm : float)
    (y_pixels x_pixels : Z) (scan_rate Y : float) :
  note_fields md = Ok (x_range_nm, y_pixels, x_pixels, scan_rate) ->
  y_pixels <> 0%Z -> (scan_rate =? 0) = false ->
  int_to_float y_pixels = Ok Y -> (Y * scan_rate =? 0) = false ->
  length keys = 9%nat ->
  normalise keys md scaling channel
  = Ok (dict_of_zip keys
          (value_list x_range_nm (VFloat (1 / (Y * scan_rate)))
             (VFloat (1 / scan_rate)) y_pixels x_pixels scaling channel)).
Proof.
  intros Hnf Hy Hr HY Hd Hlen.
  rewrite (normalise_unfold keys md scaling channel x_range_nm y_pixels x_pixels
             scan_rate (VFloat (1 / scan_rate)) (VFloat (1 / (Y * scan_rate))) Hnf).
  - unfold assemble. rewrite decide_False by (rewrite Hlen; simpl; auto).
    reflexivity.
  - unfold line_rate_of. apply Z.eqb_neq in Hy. rewrite Hy.
    unfold int_div_float. rewrite int_to_float_1, bind_Ok.
    unfold truediv. rewrite Hr. reflexivity.
  - by apply fps_of_value.
Qed.

Lemma X19_rates_of_a_scan_witness :
  normalise example_keys
    (metadata_dict (extract_metadata (str_of_bytes full_note)) 1) 1 (lit "Height")
  = Ok (dict_of_zip example_keys
          (value_list 4 (VFloat (1 / (4 * 2))) (VFloat (1 / 2)) 4 4 1 (lit "Height"))).
Proof.
  apply (X19_rates_of_a_scan _ _ _ _ 4 4 4 2 4).
  - vm_compute. reflexivity.
  - discriminate.
  - reflexivity.
  - vm_compute. reflexivity.
  - reflexivity.
  - reflexivity.
Defined.

(** X20: a pixel count too large for a float, with a scan rate that is not
    zero, raises [OverflowError] at line 101, where the count is multiplied
    by the scan rate. *)
Theorem X20_pixel_count_overflow (keys : list str) (md : gmap str pyval)
    (scaling : float) (channel : str) (x_range_nm : float)
    (y_pixels x_pixels : Z) (scan_rate : float) :
  note_fields md = Ok (x_range_nm, y_pixels, x_pixels, scan_rate) ->
  int_to_float y_pixels = Raise OverflowError ->
  (scan_rate =? 0) = false ->
  normalise keys md scaling channel = Raise OverflowError.
Proof.
  intros Hnf Hy Hr. unfold normalise. rewrite Hnf, bind_Ok.
  assert (Hy0 : (y_pixels =? 0)%Z = false).
  { apply Z.eqb_neq. intros ->. rewrite int_to_float_0 in Hy. discriminate. }
  unfold line_rate_of. rewrite Hy0.
  unfold int_div_float. rewrite int_to_float_1, bind_Ok.
  unfold truediv. rewrite Hr. cbn [fmap result_fmap]. rewrite bind_Ok.
  unfold fps_of, int_mul_float. rewrite Hr, Hy. reflexivity.
Qed.

Lemma X20_pixel_count_overflow_witness :
  normalise example_keys
    (metadata_dict
       (<[lit "ScanLines" := lit "1" ++ replicate 400 48%N]>
          (<[lit "ScanRate" := lit "2"]> ∅)) 1)
    1 (lit "Height")
  = Raise OverflowError.
Proof.
  apply (X20_pixel_count_overflow _ _ _ _ 0 (10 ^ 400) 0 2).
  - vm_compute. reflexivity.
  - vm_compute. reflexivity.
  - reflexivity.
Defined.

Lemma dom_fold_insert (keys : list str) (values : list pyval) :
  length keys = length values ->
  forall acc : gmap str pyval,
    dom (fold_left (fun d kv => <[kv.1 := kv.2]> d) (zip keys values) acc)
    = list_to_set keys ∪ dom acc.
Proof.
  revert values. induction keys as [|k keys IH]; intros [|v values] Hlen acc;
    simpl in *; try discriminate.
  - set_solver.
  - rewrite IH by lia. rewrite dom_insert_L. set_solver.
Qed.

(** X21: the record that normalisation returns has exactly the keys of the
    schema, and the schema has nine entries. *)
Theorem X21_record_has_the_schema_keys (keys : list str) (md : gmap str pyval)
    (scaling : float) (channel : str) (r : gmap str pyval) :
  normalise keys md scaling channel = Ok r ->
  dom r = list_to_set keys /\ length keys = 9%nat.
Proof.
  intros H.
  apply normalise_Ok_inv in H as (x & y & xp & rate & lr & fps & _ & _ & _ & Ha).
  destruct (assemble_spec keys (value_list x fps lr y xp scaling channel))
    as [[Hlen E]|[_ E]]; rewrite E in Ha; [|discriminate].
  injection Ha as <-. split; [|by rewrite <- Hlen].
  unfold dict_of_zip. rewrite dom_fold_insert by done. set_solver.
Qed.

Lemma X21_record_has_the_schema_keys_witness :
  dom (dict_of_zip example_keys
         (value_list 4 (VFloat 0.125) (VFloat 0.5) 4 4 1 (lit "Height")))
  = list_to_set example_keys
  /\ length example_keys = 9%nat.
Proof.
  apply (X21_record_has_the_schema_keys example_keys
           (metadata_dict (extract_metadata (str_of_bytes full_note)) 1)
           1 (lit "Height")).
  vm_compute. reflexivity.
Defined.

(** X22: under a schema of distinct keys, the record that normalisation
    returns holds the frame count 1 under the first key, the scaling it was
    given under the seventh, and [None] under the ninth. *)
Theorem X22_fixed_fields_of_the_record (keys : list str) (md : gmap str pyval)
    (scaling : float) (channel : str) (r : gmap str pyval) (k0 k6 k8 : str) :
  normalise keys md scaling channel = Ok r ->
  NoDup keys ->
  keys !! 0%nat = Some k0 -> keys !! 6%nat = Some k6 -> keys !! 8%nat = Some k8 ->
  r !! k0 = Some (VInt 1) /\ r !! k6 = Some (VFloat scaling) /\ r !! k8 = Some VNone.
Proof.
  intros H Hnd H0 H6 H8.
  apply normalise_Ok_inv in H as (x & y & xp & rate & lr & fps & _ & _ & _ & Ha).
  destruct (assemble_spec keys (value_list x fps lr y xp scaling channel))
    as [[Hlen E]|[_ E]]; rewrite E in Ha; [|discriminate].
  injection Ha as <-.
  rewrite (dict_of_zip_lookup _ _ 0 k0), (dict_of_zip_lookup _ _ 6 k6),
    (dict_of_zip_lookup _ _ 8 k8) by auto.
  auto.
Qed.

Lemma NoDup_example_keys : NoDup example_keys.
Proof. apply (bool_decide_unpack _). vm_compute. exact I. Qed.

Lemma X22_fixed_fields_of_the_record_witness :
  dict_of_zip example_keys
    (value_list 4 (VFloat 0.125) (VFloat 0.5) 4 4 1 (lit "Height"))
    !! lit "num_frames" = Some (VInt 1)
  /\ dict_of_zip example_keys
       (value_list 4 (VFloat 0.125) (VFloat 0.5) 4 4 1 (lit "Height"))
       !! lit "pixel_to_nanometre_scaling_factor" = Some (VFloat 1)
  /\ dict_of_zip example_keys
       (value_list 4 (VFloat 0.125) (VFloat 0.5) 4 4 1 (lit "Height"))
       !! lit "reserved" = Some VNone.
Proof.
  apply (X22_fixed_fields_of_the_record example_keys
           (metadata_dict (extract_metadata (str_of_bytes full_note)) 1)
           1 (lit "Height")).
  - vm_compute. reflexivity.
  - exact NoDup_example_keys.
  - reflexivity.
  - reflexivity.
  - reflexivity.
Defined.

(** X23: the scaling in the value list of a decode that returns is the
    result of [_ibw_pixel_to_nm_scaling] on the same wave; the
    ["scaling_factor"] entry that line 91 adds to the notes dictionary is not
    part of the record, whose keys are those of the schema. *)
Theorem X23_record_scaling_is_the_calculated_scaling {elt} (times_1e9 : elt -> elt)
    (keys : list str) (scan : wave elt) (channel : str)
    (image : ndarray2 elt) (file_metadata : gmap str pyval) (ls : list str) :
  open_ibw times_1e9 keys scan channel = Ok (image, file_metadata, ls) ->
  exists scaling values,
    _ibw_pixel_to_nm_scaling scan = Ok scaling
    /\ file_metadata = dict_of_zip keys values
    /\ values !! 6%nat = Some (VFloat scaling)
    /\ dom file_metadata = list_to_set keys.
Proof.
  rewrite open_ibw_unfold. intros H.
  apply bind_Ok_inv in H as (names & _ & H).
  apply bind_Ok_inv in H as (c & _ & H).
  unfold open_ibw_from in H.
  apply bind_Ok_inv in H as (idx & _ & H).
  apply bind_Ok_inv in H as (img & _ & H).
  apply bind_Ok_inv in H as (scaling & Hsc & H).
  apply bind_Ok_inv in H as (md & Hmd & H).
  injection H as _ <- _.
  apply normalise_Ok_inv in Hmd as (x & y & xp & rate & lr & fps & _ & _ & _ & Ha).
  destruct (assemble_spec keys (value_list x fps lr y xp scaling c))
    as [[Hlen E]|[_ E]]; rewrite E in Ha; [|discriminate].
  injection Ha as <-.
  exists scaling, (value_list x fps lr y xp scaling c).
  repeat split; auto.
  unfold dict_of_zip. rewrite dom_fold_insert by done. set_solver.
Qed.

Lemma X23_record_scaling_is_the_calculated_scaling_witness :
  exists scaling values,
    _ibw_pixel_to_nm_scaling
      {| note := full_note; labels := [[bytes_of "Height"]]; wData := ramp 4 4 1 |}
    = Ok scaling
    /\ dict_of_zip example_keys
         (value_list 4 (VFloat 0.125) (VFloat 0.5) 4 4 1 (lit "Height"))
       = dict_of_zip example_keys values
    /\ values !! 6%nat = Some (VFloat scaling)
    /\ dom (dict_of_zip example_keys
              (value_list 4 (VFloat 0.125) (VFloat 0.5) 4 4 1 (lit "Height")))
       = list_to_set example_keys.
Proof.
  exact (X23_record_scaling_is_the_calculated_scaling _ _ _ _ _ _ _ decode_full_note).
Defined.
